(** * qpp-measures-data: the quality-measures importer

    A shallow embedding of [scripts/measures/2018/import-quality-measures.js]
    and of the parts of JavaScript it relies on, followed by the properties
    of the importer that its specification states.

    Conventions.
    - A JavaScript string is a [string]; its characters are the code units
      U+0000..U+00FF, so [trim] and [toLowerCase] are those of JavaScript
      on that range.
    - A JavaScript number is an IEEE 754 binary64 value, [spec_float] with
      precision 53 and maximal exponent 1024.
    - A CSV row is a [list string]; [row !! i] is [row[i]], and [None] is
      JavaScript's [undefined].
    - A statement either completes normally or throws: [completion]. *)

From Stdlib Require Import ZArith NArith String Ascii List Lia.
From Stdlib Require Import DecimalString Sorting.Sorted.
From Stdlib Require Import Floats.SpecFloat.
From stdpp Require Import base option list sorting gmap strings.

(** ** Completions: normal results and thrown exceptions *)

Inductive exn : Type :=
| Error (message : string)            (* [throw Error(message)] *)
| TypeError (message : string)        (* [throw TypeError(message)] *)
| NativeTypeError (property : string) (* the engine's TypeError: [property]
                                         read or called on [undefined] or on
                                         a value that has no such method *)
| SystemError (path : string).        (* [fs]: the file cannot be read, or
                                         cannot be written *)

Inductive completion (A : Type) : Type :=
| Normal (a : A)
| Throw (e : exn).

Arguments Normal {A} a.
Arguments Throw {A} e.

Definition bind {A B : Type} (c : completion A) (k : A -> completion B)
  : completion B :=
  match c with
  | Normal a => k a
  | Throw e => Throw e
  end.

Notation "'let!' x ':=' c 'in' k" := (bind c (fun x => k))
  (at level 10, x name, c at level 100, k at level 200).

(** A loop whose body may throw: [forEach], [_.each], [Array.prototype.map]. *)
Fixpoint foldM {A S : Type} (f : S -> A -> completion S) (s : S) (l : list A)
  : completion S :=
  match l with
  | [] => Normal s
  | a :: l' => let! s' := f s a in foldM f s' l'
  end.

Fixpoint mapM {A B : Type} (f : A -> completion B) (l : list A)
  : completion (list B) :=
  match l with
  | [] => Normal []
  | a :: l' => let! b := f a in let! bs := mapM f l' in Normal (b :: bs)
  end.

(** ** Strings *)

Module JsString.

(** WhiteSpace and LineTerminator code units below U+0100:
    TAB, LF, VT, FF, CR, SP and NBSP. *)
Definition isWhiteSpace (c : ascii) : bool :=
  let n := N_of_ascii c in
  ((9 <=? n) && (n <=? 13) || (n =? 32) || (n =? 160))%N.

Fixpoint trimStart (s : string) : string :=
  match s with
  | EmptyString => EmptyString
  | String c s' => if isWhiteSpace c then trimStart s' else s
  end.

Fixpoint trimEnd (s : string) : string :=
  match s with
  | EmptyString => EmptyString
  | String c s' =>
      match trimEnd s' with
      | EmptyString => if isWhiteSpace c then EmptyString
                       else String c EmptyString
      | t => String c t
      end
  end.

(** [String.prototype.trim] *)
Definition trim (s : string) : string := trimEnd (trimStart s).

(** A string that does not open with white space. *)
Definition opensClean (s : string) : Prop :=
  match s with
  | EmptyString => True
  | String c _ => isWhiteSpace c = false
  end.

(** Upper-case letters below U+0100: A-Z, and U+00C0..U+00DE without the
    multiplication sign U+00D7; each is 32 below its lower-case letter. *)
Definition isUpper (c : ascii) : bool :=
  let n := N_of_ascii c in
  ((65 <=? n) && (n <=? 90)
   || (192 <=? n) && (n <=? 222) && negb (n =? 215))%N.

Definition toLowerChar (c : ascii) : ascii :=
  if isUpper c then ascii_of_N (N_of_ascii c + 32) else c.

(** [String.prototype.toLowerCase] *)
Fixpoint toLowerCase (s : string) : string :=
  match s with
  | EmptyString => EmptyString
  | String c s' => String (toLowerChar c) (toLowerCase s')
  end.

(** [method] called on a cell of a row: the engine throws when the cell
    is [undefined]. *)
Definition call_trim (input : option string) : completion string :=
  match input with
  | Some s => Normal (trim s)
  | None => Throw (NativeTypeError "trim")
  end.

(** ToString of an array index *)
Definition ofIndex (n : nat) : string :=
  NilEmpty.string_of_uint (Nat.to_uint n).

End JsString.

(** ** Numbers *)

Module JsNumber.

Definition JsNum : Type := spec_float.

Definition prec : Z := 53.
Definition emax : Z := 1024.

Definition NaN : JsNum := S754_nan.

(** The Number value of an integer literal of the program, as [2017]. *)
Definition ofZ (z : Z) : JsNum := binary_normalize prec emax z 0 false.

(** The Number value for the decimal [(-1)^neg * m * 10^e], rounded to
    nearest, ties to even. *)
Definition ofDecimal (neg : bool) (m : N) (e : Z) : JsNum :=
  match m with
  | N0 => S754_zero neg
  | Npos p =>
      match e with
      | Zneg k => SFdiv prec emax (S754_finite neg p 0)
                    (S754_finite false (Pos.pow 10 k) 0)
      | Z0 => binary_round prec emax neg p 0
      | Zpos k => binary_round prec emax neg (p * Pos.pow 10 k) 0
      end
  end.

Definition isDigit (c : ascii) : bool :=
  let n := N_of_ascii c in ((48 <=? n) && (n <=? 57))%N.

Definition digitValue (c : ascii) : N := (N_of_ascii c - 48)%N.

(** The value of a hexadecimal digit, of either case. *)
Definition hexValue (c : ascii) : option N :=
  let n := N_of_ascii c in
  if ((48 <=? n) && (n <=? 57))%N then Some (n - 48)%N
  else if ((97 <=? n) && (n <=? 102))%N then Some (n - 87)%N
  else if ((65 <=? n) && (n <=? 70))%N then Some (n - 55)%N
  else None.

(** The digits of radix [radix], of either case. *)
Definition radixValue (radix : N) (c : ascii) : option N :=
  match hexValue c with
  | Some d => if (d <? radix)%N then Some d else None
  | None => None
  end.

(** The longest prefix of decimal digits, and the rest. *)
Fixpoint takeDigits (s : string) : list N * string :=
  match s with
  | String c s' =>
      if isDigit c
      then let '(ds, rest) := takeDigits s' in (digitValue c :: ds, rest)
      else ([], s)
  | EmptyString => ([], EmptyString)
  end.

Definition valueOfDigits (radix : N) (ds : list N) : N :=
  fold_left (fun acc d => (acc * radix + d)%N) ds 0%N.

(** All of [s] as digits of radix [radix]; [None] if a character is not. *)
Fixpoint radixDigits (radix : N) (s : string) : option (list N) :=
  match s with
  | EmptyString => Some []
  | String c s' =>
      match radixValue radix c, radixDigits radix s' with
      | Some d, Some ds => Some (d :: ds)
      | _, _ => None
      end
  end.

(** NonDecimalIntegerLiteral: [0x], [0o] or [0b] (of either case) and at
    least one digit. The outer [option] tells whether [s] has such a
    prefix, the inner one whether the digits are well formed. *)
Definition parseNonDecimal (s : string) : option (option N) :=
  match s with
  | String "0" (String p digits) =>
      let radix :=
        if (p =? "x")%char || (p =? "X")%char then Some 16%N
        else if (p =? "o")%char || (p =? "O")%char then Some 8%N
        else if (p =? "b")%char || (p =? "B")%char then Some 2%N
        else None in
      match radix with
      | Some r =>
          Some (if String.eqb digits "" then None
                else option_map (valueOfDigits r) (radixDigits r digits))
      | None => None
      end
  | _ => None
  end.

Definition isExponentIndicator (c : ascii) : bool :=
  ((c =? "e") || (c =? "E"))%char.

(** The sign that may open a literal, and the rest. *)
Definition takeSign (s : string) : bool * string :=
  match s with
  | String "+" s' => (false, s')
  | String "-" s' => (true, s')
  | _ => (false, s)
  end.

(** ExponentPart_opt, up to the end of the literal. *)
Definition parseExponent (s : string) : option Z :=
  match s with
  | EmptyString => Some 0%Z
  | String c s' =>
      if isExponentIndicator c then
        let '(neg, s'') := takeSign s' in
        match takeDigits s'' with
        | (d :: ds, EmptyString) =>
            let v := Z.of_N (valueOfDigits 10 (d :: ds)) in
            Some (if neg then (- v)%Z else v)
        | _ => None
        end
      else None
  end.

(** StrUnsignedDecimalLiteral without [Infinity]: mantissa and decimal
    exponent. *)
Definition parseUnsignedDecimal (s : string) : option (N * Z) :=
  let '(ip, r1) := takeDigits s in
  let '(fp, r2) :=
    match r1 with
    | String "." r => takeDigits r
    | _ => ([], r1)
    end in
  match ip ++ fp with
  | [] => None
  | ds =>
      match parseExponent r2 with
      | Some e => Some (valueOfDigits 10 ds, (e - Z.of_nat (length fp))%Z)
      | None => None
      end
  end.

(** StringToNumber on a string without outer white space. *)
Definition parseLiteral (t : string) : JsNum :=
  match t with
  | EmptyString => S754_zero false
  | _ =>
      match parseNonDecimal t with
      | Some (Some n) => ofDecimal false n 0
      | Some None => NaN
      | None =>
          let '(neg, body) := takeSign t in
          if String.eqb body "Infinity" then S754_infinity neg
          else match parseUnsignedDecimal body with
               | Some (m, e) => ofDecimal neg m e
               | None => NaN
               end
      end
  end.

(** [Number(s)] for a string [s] *)
Definition Number (s : string) : JsNum := parseLiteral (JsString.trim s).

(** SameValueZero on numbers: NaN is itself, and the two zeros are one. *)
Definition sameValueZero (x y : JsNum) : bool :=
  match x, y with
  | S754_nan, S754_nan => true
  | S754_zero _, S754_zero _ => true
  | S754_infinity s1, S754_infinity s2 => Bool.eqb s1 s2
  | S754_finite s1 m1 e1, S754_finite s2 m2 e2 =>
      Bool.eqb s1 s2 && (m1 =? m2)%positive && (e1 =? e2)%Z
  | _, _ => false
  end.

(** [Array.prototype.includes] on an array of numbers *)
Definition includes (xs : list JsNum) (x : JsNum) : bool :=
  existsb (fun y => sameValueZero y x) xs.

Definition isFinite (x : JsNum) : bool :=
  match x with
  | S754_zero _ | S754_finite _ _ _ => true
  | _ => false
  end.

Definition isZero (x : JsNum) : bool :=
  match x with
  | S754_zero _ => true
  | _ => false
  end.

Definition isNaN (x : JsNum) : bool :=
  match x with
  | S754_nan => true
  | _ => false
  end.

End JsNumber.

(** ** Values *)

#[warning="-register-all"] Inductive JsValue : Type :=
| VUndefined
| VNull
| VBool (b : bool)
| VNum (n : JsNumber.JsNum)
| VStr (s : string)
| VArr (items : list JsValue)
| VObj (props : gmap string JsValue)
| VNative (name : string).   (* a built-in object or function *)

Module JsValues.

(** ToBoolean *)
Definition ToBoolean (v : JsValue) : bool :=
  match v with
  | VUndefined | VNull => false
  | VBool b => b
  | VNum n => negb (JsNumber.isZero n || JsNumber.isNaN n)
  | VStr s => negb (String.eqb s "")
  | VArr _ | VObj _ | VNative _ => true
  end.

(** [a || b] *)
Definition or (a b : JsValue) : JsValue := if ToBoolean a then a else b.

(** The properties that an object literal inherits from
    [Object.prototype]. *)
Definition objectPrototype : list (string * JsValue) :=
  [ ("constructor", VNative "Object");
    ("__proto__", VNative "Object.prototype");
    ("hasOwnProperty", VNative "Object.prototype.hasOwnProperty");
    ("isPrototypeOf", VNative "Object.prototype.isPrototypeOf");
    ("propertyIsEnumerable", VNative "Object.prototype.propertyIsEnumerable");
    ("toLocaleString", VNative "Object.prototype.toLocaleString");
    ("toString", VNative "Object.prototype.toString");
    ("valueOf", VNative "Object.prototype.valueOf");
    ("__defineGetter__", VNative "Object.prototype.__defineGetter__");
    ("__defineSetter__", VNative "Object.prototype.__defineSetter__");
    ("__lookupGetter__", VNative "Object.prototype.__lookupGetter__");
    ("__lookupSetter__", VNative "Object.prototype.__lookupSetter__") ].

Fixpoint assoc (l : list (string * JsValue)) (key : string)
  : option JsValue :=
  match l with
  | [] => None
  | (k, v) :: l' => if String.eqb k key then Some v else assoc l' key
  end.

(** [table[key]] for an object literal [table] whose own properties are
    strings: an own property first, then an inherited one. *)
Definition getProperty (table : gmap string string) (key : string)
  : JsValue :=
  match table !! key with
  | Some label => VStr label
  | None =>
      match assoc objectPrototype key with
      | Some v => v
      | None => VUndefined
      end
  end.

(** The own properties of an object literal whose keys are array
    indices, in the order in which [Object.keys], [for-in] and lodash's
    [_.each] visit them: ascending in the index, whatever the order in
    which the literal lists them; of two entries with one key the later
    one gives the value. *)
Fixpoint putEntry (k : nat) (v : string) (o : list (nat * string))
  : list (nat * string) :=
  match o with
  | [] => [(k, v)]
  | (k', v') :: o' =>
      if (k <? k')%nat then (k, v) :: o
      else if (k =? k')%nat then (k, v) :: o'
      else (k', v') :: putEntry k v o'
  end.

Definition ownEntries (literal : list (nat * string))
  : list (nat * string) :=
  fold_left (fun o kv => putEntry kv.1 kv.2 o) literal [].

End JsValues.

(** A measure under construction: an object with named fields. *)
Abbreviation Measure := (gmap string JsValue).

(** ** The configuration *)

(** An entry of [CONFIG.sourced_fields]: a column number, or an object with
    an [index], possibly [mappings], possibly a [default] ([VUndefined]
    when the entry has none). *)
Inductive ColumnObject : Type :=
| Column (index : nat)
| ColumnSpec (index : nat) (mappings : option (gmap string string))
             (default : JsValue).

Record Config : Type := {
  constant_fields : list (string * JsValue);
  sourced_fields : list (string * ColumnObject)
}.

Definition measureTypeMappings : gmap string string :=
  list_to_map
    [ ("process", "process");
      ("outcome", "outcome");
      ("patient engagement/experience", "patientEngagementExperience");
      ("efficiency", "efficiency");
      ("intermediate outcome", "intermediateOutcome");
      ("structure", "structure");
      ("patient reported outcome", "outcome");
      ("composite", "outcome");
      ("cost/resource use", "efficiency");
      ("clinical process effectiveness", "process") ].

(** The entries are in the order of [Object.entries]: that of the literal,
    no field name being an array index. *)
Definition CONFIG : Config := {|
  constant_fields :=
    [ ("category", VStr "quality");
      ("isRegistryMeasure", VBool false);
      ("isRiskAdjusted", VBool false) ];
  sourced_fields :=
    [ ("title", Column 1);
      ("eMeasureId", Column 2);
      ("nqfEMeasureId", Column 3);
      ("nqfId", Column 4);
      ("measureId", Column 5);
      ("description", Column 6);
      ("nationalQualityStrategyDomain", Column 7);
      ("measureType", ColumnSpec 8 (Some measureTypeMappings) VUndefined);
      ("primarySteward", Column 9);
      ("metricType", Column 51);
      ("firstPerformanceYear",
        ColumnSpec 52 None (VNum (JsNumber.ofZ 2017)));
      ("lastPerformanceYear", ColumnSpec 53 None VNull);
      ("isHighPriority", ColumnSpec 55 None (VBool false));
      ("isInverse", ColumnSpec 56 None (VBool false));
      ("overallAlgorithm", Column 60) ]
|}.

(** The two literals, as they are written. *)
Definition SUBMISSION_METHODS : list (nat * string) :=
  [ (10, "claims");
    (11, "certifiedSurveyVendor");
    (12, "electronicHealthRecord");
    (13, "cmsWebInterface");
    (14, "administrativeClaims");
    (15, "registry") ].

Definition MEASURE_SETS : list (nat * string) :=
  [ (16, "allergyImmunology");
    (17, "anesthesiology");
    (18, "cardiology");
    (19, "dermatology");
    (20, "diagnosticRadiology");
    (21, "electrophysiologyCardiacSpecialist");
    (22, "emergencyMedicine");
    (23, "gastroenterology");
    (24, "generalOncology");
    (25, "generalPracticeFamilyMedicine");
    (26, "generalSurgery");
    (27, "hospitalists");
    (28, "internalMedicine");
    (29, "interventionalRadiology");
    (30, "mentalBehavioralHealth");
    (31, "neurology");
    (32, "obstetricsGynecology");
    (33, "ophthalmology");
    (34, "orthopedicSurgery");
    (35, "otolaryngology");
    (36, "pathology");
    (37, "pediatrics");
    (38, "physicalMedicine");
    (39, "plasticSurgery");
    (40, "preventiveMedicine");
    (41, "radiationOncology");
    (42, "rheumatology");
    (43, "thoracicSurgery");
    (44, "urology");
    (45, "vascularSurgery") ].

(** ** The file system *)

(** The disk: the files by their resolved paths, each with its text, and
    the paths at which no file can be written. The importer reads and
    writes the one disk, so that what it writes replaces a file of the
    same path, whatever that file is. *)
Record Disk : Type := {
  files : gmap string string;
  readOnly : gset string
}.

(** [fs.readFileSync(path, 'utf8')] *)
Definition readFileSync (disk : Disk) (path : string) : completion string :=
  match files disk !! path with
  | Some text => Normal text
  | None => Throw (SystemError path)
  end.

(** [fs.writeFileSync(path, data)]: the completion and the disk it
    leaves. *)
Definition writeFileSync (disk : Disk) (path data : string)
  : completion unit * Disk :=
  if decide (path ∈ readOnly disk) then (Throw (SystemError path), disk)
  else (Normal tt,
        {| files := <[path := data]> (files disk);
           readOnly := readOnly disk |}).

(** ** The importer *)

Section Importer.

(** [Constants.validPerformanceYears], of [constants.js] *)
Variable validPerformanceYears : list JsNumber.JsNum.

(** [process.argv[2]], [process.argv[3]] and [process.argv[4]] *)
Variables qualityMeasuresPath qualityStrataPath outputPath : string.

(** What the importer takes from its libraries: [path.join(__dirname, p)]
    of [path], [parse(csv, 'utf8')] of [csv-parse], which returns the rows
    of a text or throws, over the whole text with its header rows, and
    [JSON.stringify(measures, null, 2)]. *)
Variable resolvePath : string -> string.
Variable parse : string -> completion (list (list string)).
Variable stringify : list Measure -> string.

(** [getCsv(csvPath, headerRows)]: the file is read, all of it is parsed,
    and the header rows are shifted out of the parsed rows. *)
Definition getCsv (disk : Disk) (csvPath : string) (headerRows : nat)
  : completion (list (list string)) :=
  let! csv := readFileSync disk (resolvePath csvPath) in
  let! parsedCsv := parse csv in
  Normal (drop headerRows parsedCsv).

Definition cleanInput (input : option string) : completion string :=
  let! trimmed := JsString.call_trim input in
  Normal (JsString.toLowerCase trimmed).

Definition mapInput (input : option string) : completion JsValue :=
  let! cleanedInput := cleanInput input in
  if String.eqb cleanedInput "true" || String.eqb cleanedInput "x" then
    Normal (VBool true)
  else if String.eqb cleanedInput "false" then
    Normal (VBool false)
  else if String.eqb cleanedInput "null" || String.eqb cleanedInput "n/a"
  then
    Normal VNull
  else if JsNumber.includes validPerformanceYears
            (JsNumber.Number cleanedInput) then
    Normal (VNum (JsNumber.Number cleanedInput))
  else
    let! trimmed := JsString.call_trim input in
    Normal (VStr trimmed).

(** The body of the loop of [getCheckedColumns]. *)
Definition checkColumn (row : list string) (checkedColumns : list string)
    (entry : nat * string) : completion (list string) :=
  let '(key, value) := entry in
  let! cell := mapInput (row !! key) in
  match cell with
  | VBool true => Normal (checkedColumns ++ [value])
  | _ => Normal checkedColumns
  end.

(** [columnNumberToNameMap] is the object literal, as it is written. *)
Definition getCheckedColumns (row : list string)
    (columnNumberToNameMap : list (nat * string))
  : completion (list string) :=
  foldM (checkColumn row) []
    (JsValues.ownEntries columnNumberToNameMap).

(** [_.find(measures, {'measureId': measureId})]: the index of the first
    measure whose [measureId] is the string [measureId]. *)
Definition hasMeasureId (measureId : string) (measure : Measure) : bool :=
  match measure !! "measureId" with
  | Some (VStr s) => String.eqb s measureId
  | _ => false
  end.

Fixpoint findIndex (measureId : string) (measures : list Measure)
  : option nat :=
  match measures with
  | [] => None
  | measure :: rest =>
      if hasMeasureId measureId measure then Some 0
      else S <$> findIndex measureId rest
  end.

(** What the body of the loop of [addMultiPerformanceRateStrata] does to
    the measure it has found. *)
Definition pushStratum (measure : Measure) (stratumName description : string)
  : completion Measure :=
  let measure :=
    if JsValues.ToBoolean (default VUndefined (measure !! "strata"))
    then measure
    else <["strata" := VArr []]> measure in
  match measure !! "strata" with
  | Some (VArr strata) =>
      Normal (<["strata" :=
                  VArr (strata ++
                        [VObj (<["name" := VStr stratumName]>
                               (<["description" := VStr description]> ∅))])]>
                measure)
  | _ => Throw (NativeTypeError "push")
  end.

(** The body of the loop of [addMultiPerformanceRateStrata]: the measures
    are changed in place. *)
Definition addStratum (measures : list Measure) (row : list string)
  : completion (list Measure) :=
  match row !! 0 with
  | None | Some "" => Normal measures
  | Some _ =>
      let! measureId := JsString.call_trim (row !! 0) in
      let! stratumName := JsString.call_trim (row !! 1) in
      let! description := JsString.call_trim (row !! 3) in
      match findIndex measureId measures with
      | None =>
          Throw (TypeError ("Measure id: " +:+ measureId +:+
                            " does not exist in " +:+ qualityMeasuresPath +:+
                            " but does exist in " +:+ qualityStrataPath))
      | Some i =>
          match measures !! i with
          | Some measure =>
              let! measure' := pushStratum measure stratumName description in
              Normal (<[i := measure']> measures)
          | None => Normal measures
          end
      end
  end.

Definition addMultiPerformanceRateStrata (measures : list Measure)
    (strataRows : list (list string)) : completion (list Measure) :=
  foldM addStratum measures strataRows.

(** The body of the loop over [Object.entries(sourcedFields)]. *)
Definition setSourcedField (row : list string) (measure : Measure)
    (entry : string * ColumnObject) : completion Measure :=
  let '(measureKey, columnObject) := entry in
  match columnObject with
  | Column index =>
      match row !! index with
      | None =>
          Throw (Error ("Column " +:+ JsString.ofIndex index +:+
                        " does not exist in source data"))
      | Some "" => Normal measure
      | Some input =>
          let! value := mapInput (Some input) in
          Normal (<[measureKey := value]> measure)
      end
  | ColumnSpec index mappings default =>
      let! value :=
        match mappings with
        | Some table =>
            let! input := cleanInput (row !! index) in
            Normal (JsValues.getProperty table input)
        | None => mapInput (row !! index)
        end in
      Normal (<[measureKey := JsValues.or value default]> measure)
  end.

(** The function that [qualityCsvRows.map] applies to each row. *)
Definition buildMeasure (sourcedFields : list (string * ColumnObject))
    (constantFields : list (string * JsValue)) (row : list string)
  : completion Measure :=
  let! measure := foldM (setSourcedField row) ∅ sourcedFields in
  let measure :=
    fold_left (fun m kv => <[kv.1 := kv.2]> m) constantFields measure in
  let! submissionMethods := getCheckedColumns row SUBMISSION_METHODS in
  let measure :=
    <["submissionMethods" := VArr (VStr <$> submissionMethods)]> measure in
  let! measureSets := getCheckedColumns row MEASURE_SETS in
  Normal (<["measureSets" := VArr (VStr <$> measureSets)]> measure).

(** [convertQualityStrataCsvsToMeasures], for the configuration [config]
    in the place of the constant [CONFIG]. *)
Definition convertWith (config : Config)
    (qualityCsvRows strataCsvRows : list (list string))
  : completion (list Measure) :=
  let sourcedFields := sourced_fields config in
  let constantFields := constant_fields config in
  let! measures :=
    mapM (buildMeasure sourcedFields constantFields) qualityCsvRows in
  addMultiPerformanceRateStrata measures strataCsvRows.

Definition convertQualityStrataCsvsToMeasures
    (qualityCsvRows strataCsvRows : list (list string))
  : completion (list Measure) :=
  convertWith CONFIG qualityCsvRows strataCsvRows.

(** [importQualityMeasures()]: the completion and the disk it leaves. *)
Definition importWith (config : Config) (disk : Disk)
  : completion unit * Disk :=
  match
    (let! qualityCsv := getCsv disk qualityMeasuresPath 2 in
     let! strataCsv := getCsv disk qualityStrataPath 2 in
     convertWith config qualityCsv strataCsv)
  with
  | Normal qualityMeasures =>
      let qualityMeasuresJson := stringify qualityMeasures in
      writeFileSync disk (resolvePath outputPath) qualityMeasuresJson
  | Throw e => (Throw e, disk)
  end.

Definition importQualityMeasures (disk : Disk) : completion unit * Disk :=
  importWith CONFIG disk.

End Importer.

(** The error of a direct entry whose column is not in the row. *)
Definition missingColumn (index : nat) : exn :=
  Error ("Column " +:+ JsString.ofIndex index +:+
         " does not exist in source data").

(** The error of a stratum whose measure is not among the measures. *)
Definition unknownMeasure (measureId qualityPath strataPath : string) : exn :=
  TypeError ("Measure id: " +:+ measureId +:+ " does not exist in " +:+
             qualityPath +:+ " but does exist in " +:+ strataPath).

(** The field [key] of the measures, in their order. *)
Definition fieldValues (key : string) (measures : list Measure)
  : list (option JsValue) :=
  (fun measure : Measure => measure !! key) <$> measures.

(** The identifying fields of the measures, in their order. *)
Definition measureIds (measures : list Measure) : list (option JsValue) :=
  fieldValues "measureId" measures.

(** The stratum that a row of the strata file adds. *)
Definition stratum (stratumName description : string) : JsValue :=
  VObj (<["name" := VStr stratumName]>
        (<["description" := VStr description]> ∅)).

(** Whether the cell of a column normalizes to the boolean true. *)
Definition isChecked (validYears : list JsNumber.JsNum) (row : list string)
    (key : nat) : bool :=
  match mapInput validYears (row !! key) with
  | Normal (VBool true) => true
  | _ => false
  end.

(** The column that an entry of the mapping reads. *)
Definition columnIndex (columnObject : ColumnObject) : nat :=
  match columnObject with
  | Column index => index
  | ColumnSpec index _ _ => index
  end.

(** Whether an entry of the mapping sets its field for a row: a direct
    entry does unless its cell is the empty string, another entry always
    does. *)
Definition setsField (row : list string) (columnObject : ColumnObject)
  : bool :=
  match columnObject with
  | Column index =>
      match row !! index with
      | Some "" => false
      | _ => true
      end
  | ColumnSpec _ _ _ => true
  end.

(** The strata of a measure: those of its array [strata], none when the
    field is not an array. *)
Definition strataOf (measure : Measure) : list JsValue :=
  match measure !! "strata" with
  | Some (VArr strata) => strata
  | _ => []
  end.

(** The stratum that a row of the strata file gives to the measure at
    position [i] of [measures]: the row has a key that is not empty, a
    name and a description, and its key, trimmed, is first found at [i]. *)
Definition stratumFor (measures : list Measure) (i : nat)
    (row : list string) : list JsValue :=
  match row !! 0, row !! 1, row !! 3 with
  | Some key, Some stratumName, Some description =>
      if negb (String.eqb key "")
         && bool_decide (findIndex (JsString.trim key) measures = Some i)
      then [stratum (JsString.trim stratumName) (JsString.trim description)]
      else []
  | _, _, _ => []
  end.

(** ** The normalizer, in the words of the specification *)

Module Spec.

(** Rules 1 to 5 of the Value Normalizer: the value is trimmed first and
    compared without regard to case; rule 4 parses the trimmed value. *)
Definition normalize (validYears : list JsNumber.JsNum) (raw : string)
  : JsValue :=
  let trimmed := JsString.trim raw in
  let folded := JsString.toLowerCase trimmed in
  if String.eqb folded "true" || String.eqb folded "x" then VBool true
  else if String.eqb folded "false" then VBool false
  else if String.eqb folded "null" || String.eqb folded "n/a" then VNull
  else if JsNumber.includes validYears (JsNumber.Number trimmed)
  then VNum (JsNumber.Number trimmed)
  else VStr trimmed.

(** The values that [||] replaces, as the specification lists them. *)
Definition falsy (v : JsValue) : Prop :=
  v = VBool false \/ (exists n, v = VNum n /\ JsNumber.isZero n = true)
  \/ v = VNull \/ v = VStr "".

End Spec.

(** ** Sample inputs *)

Module Samples.

(** A list of valid performance years. *)
Definition years : list JsNumber.JsNum :=
  [JsNumber.ofZ 2017; JsNumber.ofZ 2018; JsNumber.ofZ 2019].

(** A row of [n] cells that hold [cell], but for the cells listed in
    [cells], by their indices. *)
Definition rowOf (n : nat) (cell : string) (cells : list (nat * string))
  : list string :=
  fold_left (fun row kv => <[kv.1 := kv.2]> row) cells (replicate n cell).

(** A mapping with a field of the name of a constant field. *)
Definition config : Config := {|
  constant_fields := [ ("category", VStr "quality") ];
  sourced_fields :=
    [ ("title", Column 0);
      ("category", Column 1);
      ("isInverse", ColumnSpec 2 None (VBool false)) ]
|}.

(** A row of 46 cells: a title, a category, and the column 10 checked. *)
Definition row : list string :=
  rowOf 46 "" [(0, " Title "); (1, "other"); (10, "x")].

End Samples.

(** * Properties *)

(** A property of every character, by cases on its eight bits. *)
Ltac each_char c :=
  destruct c as [[|] [|] [|] [|] [|] [|] [|] [|]].

(** ** Characters and strings *)

Section Strings.

Import JsString.

Lemma isWhiteSpace_toLowerChar c :
  isWhiteSpace (toLowerChar c) = isWhiteSpace c.
Proof. each_char c; reflexivity. Qed.

Lemma trimStart_toLowerCase s :
  trimStart (toLowerCase s) = toLowerCase (trimStart s).
Proof.
  induction s as [|c s IH]; simpl; [reflexivity|].
  rewrite isWhiteSpace_toLowerChar.
  destruct (isWhiteSpace c); [exact IH | reflexivity].
Qed.

Lemma trimEnd_toLowerCase s :
  trimEnd (toLowerCase s) = toLowerCase (trimEnd s).
Proof.
  induction s as [|c s IH]; simpl; [reflexivity|].
  rewrite IH, isWhiteSpace_toLowerChar.
  destruct (trimEnd s); simpl; [|reflexivity].
  destruct (isWhiteSpace c); reflexivity.
Qed.

Lemma trim_toLowerCase s : trim (toLowerCase s) = toLowerCase (trim s).
Proof.
  unfold trim. now rewrite trimStart_toLowerCase, trimEnd_toLowerCase.
Qed.

Lemma trimStart_opensClean s : opensClean (trimStart s).
Proof.
  induction s as [|c s IH]; simpl; [exact I|].
  destruct (isWhiteSpace c) eqn:E; [exact IH | exact E].
Qed.

Lemma trimEnd_opensClean s : opensClean s -> opensClean (trimEnd s).
Proof.
  destruct s as [|c s]; simpl; [trivial|]. intros E.
  destruct (trimEnd s); simpl; [rewrite E|]; simpl; exact E.
Qed.

Lemma trimStart_clean s : opensClean s -> trimStart s = s.
Proof. destruct s as [|c s]; simpl; [trivial|]. now intros ->. Qed.

Lemma trimEnd_idem s : trimEnd (trimEnd s) = trimEnd s.
Proof.
  induction s as [|c s IH]; simpl; [reflexivity|].
  destruct (trimEnd s) as [|d t] eqn:E.
  - destruct (isWhiteSpace c) eqn:W; simpl; [reflexivity|now rewrite W].
  - simpl in *. rewrite IH. reflexivity.
Qed.

Lemma trim_idem s : trim (trim s) = trim s.
Proof.
  unfold trim.
  rewrite (trimStart_clean (trimEnd (trimStart s))).
  - apply trimEnd_idem.
  - apply trimEnd_opensClean, trimStart_opensClean.
Qed.

End Strings.

(** ** Numbers: the case of a literal does not matter, but for [Infinity] *)

Section Numbers.

Import JsString JsNumber.

Lemma takeDigits_toLowerCase s :
  takeDigits (toLowerCase s)
  = ((takeDigits s).1, toLowerCase (takeDigits s).2).
Proof.
  induction s as [|c s IH]; [reflexivity|].
  cbn [toLowerCase takeDigits].
  each_char c; cbn -[takeDigits toLowerCase]; try reflexivity;
    rewrite IH; destruct (takeDigits s); reflexivity.
Qed.

Lemma takeSign_toLowerCase s :
  takeSign (toLowerCase s) = ((takeSign s).1, toLowerCase (takeSign s).2).
Proof. destruct s as [|c s]; [reflexivity|]. each_char c; reflexivity. Qed.

Lemma isExponentIndicator_toLowerChar c :
  isExponentIndicator (toLowerChar c) = isExponentIndicator c.
Proof. each_char c; reflexivity. Qed.

Lemma toLowerCase_empty s : toLowerCase s = EmptyString -> s = EmptyString.
Proof. destruct s; [reflexivity | discriminate]. Qed.

Lemma parseExponent_toLowerCase s :
  parseExponent (toLowerCase s) = parseExponent s.
Proof.
  destruct s as [|c s]; [reflexivity|].
  cbn [toLowerCase parseExponent].
  rewrite isExponentIndicator_toLowerChar.
  destruct (isExponentIndicator c); [|reflexivity].
  rewrite takeSign_toLowerCase. destruct (takeSign s) as [neg s'].
  cbn [fst snd]. rewrite takeDigits_toLowerCase.
  destruct (takeDigits s') as [ds rest]. cbn [fst snd].
  destruct ds as [|d ds]; [reflexivity|].
  destruct rest; reflexivity.
Qed.

Lemma parseUnsignedDecimal_toLowerCase s :
  parseUnsignedDecimal (toLowerCase s) = parseUnsignedDecimal s.
Proof.
  unfold parseUnsignedDecimal. rewrite takeDigits_toLowerCase.
  destruct (takeDigits s) as [ip r1]. cbn [fst snd].
  assert (H : (match toLowerCase r1 with
               | String "." r => takeDigits r
               | _ => ([], toLowerCase r1)
               end)
              = (let p := match r1 with
                          | String "." r => takeDigits r
                          | _ => ([], r1)
                          end in (p.1, toLowerCase p.2))).
  { destruct r1 as [|c r]; [reflexivity|].
    each_char c; try reflexivity.
    cbn -[takeDigits toLowerCase]. apply takeDigits_toLowerCase. }
  rewrite H. clear H.
  destruct (match r1 with String "." r => takeDigits r | _ => ([], r1) end)
    as [fp r2].
  cbn [fst snd]. now rewrite parseExponent_toLowerCase.
Qed.

Lemma radixValue_toLowerChar radix c :
  radixValue radix (toLowerChar c) = radixValue radix c.
Proof. each_char c; reflexivity. Qed.

Lemma radixDigits_toLowerCase radix s :
  radixDigits radix (toLowerCase s) = radixDigits radix s.
Proof.
  induction s as [|c s IH]; [reflexivity|].
  cbn [toLowerCase radixDigits]. now rewrite IH, radixValue_toLowerChar.
Qed.

Lemma parseNonDecimal_toLowerCase s :
  parseNonDecimal (toLowerCase s) = parseNonDecimal s.
Proof.
  destruct s as [|c s]; [reflexivity|].
  each_char c; try (destruct s; reflexivity).
  destruct s as [|p digits]; [reflexivity|].
  cbn [toLowerCase].
  each_char p; try reflexivity;
    cbv -[radixDigits toLowerCase valueOfDigits option_map String.eqb];
    rewrite radixDigits_toLowerCase; destruct digits; reflexivity.
Qed.

Lemma toLowerCase_not_Infinity s :
  String.eqb (toLowerCase s) "Infinity" = false.
Proof. destruct s as [|c s]; [reflexivity|]. each_char c; reflexivity. Qed.

(** The lower-cased literal has the same value, unless the literal is an
    infinity, which [Number] reads in this one spelling only. *)
Lemma parseLiteral_toLowerCase t :
  parseLiteral (toLowerCase t) = parseLiteral t
  \/ (isFinite (parseLiteral t) = false
      /\ parseLiteral (toLowerCase t) = NaN).
Proof.
  destruct t as [|c t]; [left; reflexivity|].
  unfold parseLiteral.
  rewrite parseNonDecimal_toLowerCase, takeSign_toLowerCase.
  cbn [toLowerCase].
  destruct (parseNonDecimal (String c t)) as [[n|]|];
    [left; reflexivity | left; reflexivity |].
  destruct (takeSign (String c t)) as [neg body]. cbn [fst snd].
  rewrite toLowerCase_not_Infinity, parseUnsignedDecimal_toLowerCase.
  destruct (String.eqb body "Infinity") eqn:E; [|left; reflexivity].
  right. apply String.eqb_eq in E. subst body. split; reflexivity.
Qed.

Lemma Number_toLowerCase s :
  Number (toLowerCase (trim s)) = Number (trim s)
  \/ (isFinite (Number (trim s)) = false
      /\ Number (toLowerCase (trim s)) = NaN).
Proof.
  unfold Number. rewrite trim_toLowerCase, trim_idem.
  apply parseLiteral_toLowerCase.
Qed.

Lemma sameValueZero_refl x : sameValueZero x x = true.
Proof.
  destruct x as [s|s| |s m e]; simpl; try reflexivity.
  - now destruct s.
  - rewrite Pos.eqb_refl, Z.eqb_refl. now destruct s.
Qed.

Lemma sameValueZero_finite x y :
  sameValueZero y x = true -> isFinite y = true -> isFinite x = true.
Proof. destruct x, y; simpl; congruence. Qed.

Lemma includes_finite xs x :
  Forall (fun y => isFinite y = true) xs ->
  isFinite x = false -> includes xs x = false.
Proof.
  intros Hall Hx. unfold includes. apply not_true_is_false. intros H.
  apply existsb_exists in H as (y & Hy & Hs).
  rewrite Forall_forall in Hall.
  apply list_elem_of_In, Hall in Hy.
  apply (sameValueZero_finite _ _ Hs) in Hy. congruence.
Qed.

(** For a list of finite numbers, looking up the number read from the
    trimmed cell or from the trimmed and lower-cased cell is one. *)
Lemma includes_Number_toLowerCase xs s :
  Forall (fun y => isFinite y = true) xs ->
  includes xs (Number (toLowerCase (trim s))) = includes xs (Number (trim s))
  /\ (includes xs (Number (trim s)) = true ->
      Number (toLowerCase (trim s)) = Number (trim s)).
Proof.
  intros Hall. destruct (Number_toLowerCase s) as [-> | [Hinf ->]].
  - split; [reflexivity | trivial].
  - rewrite (includes_finite xs (Number (trim s))) by assumption.
    split; [|discriminate]. now apply includes_finite.
Qed.

End Numbers.

(** ** The Value Normalizer *)

Section Normalizer.

Import JsString JsNumber.

Variable years : list JsNum.

Lemma mapInput_undefined :
  mapInput years None = Throw (NativeTypeError "trim").
Proof. reflexivity. Qed.

Lemma cleanInput_undefined : cleanInput None = Throw (NativeTypeError "trim").
Proof. reflexivity. Qed.

(** A cell that is there is always normalized: [mapInput] does not throw
    on a string. *)
Lemma mapInput_total raw :
  exists v, mapInput years (Some raw) = Normal v.
Proof.
  unfold mapInput, cleanInput, call_trim, bind.
  repeat match goal with
         | |- context [if ?b then _ else _] => destruct b
         end; eauto.
Qed.

(** C1. For every raw cell string the normalizer trims the cell and
    compares it without regard to case: [true] or [x] gives the boolean
    true, [false] the boolean false, [null] or [n/a] null; otherwise, if
    the trimmed cell read as a number is one of the valid performance
    years (finite numbers), it gives that number; otherwise it gives the
    cell trimmed, as a string in its own case. So the cells [TRUE],
    [True], [true], [X] and [x] give true, the cells [FALSE], [false] and
    [ False ] give false, and the cells [null], [N/A] and [n/a] give
    null. *)
Theorem mapInput_normalize :
  (Forall (fun year => isFinite year = true) years ->
   forall raw : string,
     mapInput years (Some raw) = Normal (Spec.normalize years raw))
  /\ Forall (fun raw => mapInput years (Some raw) = Normal (VBool true))
       ["TRUE"; "True"; "true"; "X"; "x"]
  /\ Forall (fun raw => mapInput years (Some raw) = Normal (VBool false))
       ["FALSE"; "false"; " False "]
  /\ Forall (fun raw => mapInput years (Some raw) = Normal VNull)
       ["null"; "N/A"; "n/a"].
Proof.
  split; [|repeat split; repeat constructor].
  intros Hyears raw.
  destruct (includes_Number_toLowerCase years raw Hyears) as [Hin Heq].
  unfold mapInput, cleanInput, call_trim, bind, Spec.normalize.
  destruct (_ || _); [reflexivity|].
  destruct (String.eqb _ "false"); [reflexivity|].
  destruct (_ || _); [reflexivity|].
  rewrite Hin.
  destruct (includes years (Number (trim raw))) eqn:E; [|reflexivity].
  now rewrite Heq.
Qed.

End Normalizer.

Lemma mapInput_normalize_witness :
  Forall (fun year => JsNumber.isFinite year = true) Samples.years
  /\ mapInput Samples.years (Some " 2018 ")
     = Normal (Spec.normalize Samples.years " 2018 ")
  /\ Spec.normalize Samples.years " 2018 " = VNum (JsNumber.ofZ 2018).
Proof.
  split; [repeat constructor|]. split; [|reflexivity].
  apply (proj1 (mapInput_normalize Samples.years)). repeat constructor.
Defined.

(** ** Loops that may throw *)

Section Loops.

Context {A B S : Type}.

Lemma foldM_app (f : S -> A -> completion S) s l1 l2 :
  foldM f s (l1 ++ l2) = bind (foldM f s l1) (fun s' => foldM f s' l2).
Proof.
  revert s. induction l1 as [|a l1 IH]; intros s; simpl; [reflexivity|].
  destruct (f s a); simpl; [apply IH | reflexivity].
Qed.

Lemma mapM_app (f : A -> completion B) l1 l2 :
  mapM f (l1 ++ l2)
  = bind (mapM f l1) (fun bs1 =>
      bind (mapM f l2) (fun bs2 => Normal (bs1 ++ bs2))).
Proof.
  induction l1 as [|a l1 IH]; simpl.
  - destruct (mapM f l2); reflexivity.
  - destruct (f a); simpl; [|reflexivity]. rewrite IH.
    destruct (mapM f l1); simpl; [|reflexivity].
    destruct (mapM f l2); reflexivity.
Qed.

(** A loop throws as soon as its body does. *)
Lemma mapM_throws (f : A -> completion B) l1 a l2 e :
  f a = Throw e -> exists e', mapM f (l1 ++ a :: l2) = Throw e'.
Proof.
  intros Ha. rewrite mapM_app. destruct (mapM f l1); simpl; [|eauto].
  rewrite Ha. simpl. eauto.
Qed.

Lemma foldM_throws (f : S -> A -> completion S) s l1 a l2 e :
  (forall s', f s' a = Throw e) ->
  exists e', foldM f s (l1 ++ a :: l2) = Throw e'
             /\ (forall s', foldM f s l1 = Normal s' -> e' = e).
Proof.
  intros Ha. rewrite foldM_app. destruct (foldM f s l1) as [s'|e']; simpl.
  - rewrite Ha. simpl. exists e. split; [reflexivity | trivial].
  - exists e'. split; [reflexivity | discriminate].
Qed.

Lemma mapM_lookup (f : A -> completion B) l bs i a :
  mapM f l = Normal bs -> l !! i = Some a ->
  exists b, f a = Normal b /\ bs !! i = Some b.
Proof.
  revert bs i. induction l as [|a' l IH]; intros bs i H Hi; [discriminate|].
  simpl in H. destruct (f a') as [b'|] eqn:E; simpl in H; [|discriminate].
  destruct (mapM f l) as [bs'|]; simpl in H; [|discriminate].
  inversion H; subst bs. destruct i as [|i].
  - inversion Hi; subst a'. now exists b'.
  - now apply (IH bs' i).
Qed.

Lemma mapM_length (f : A -> completion B) l bs :
  mapM f l = Normal bs -> length bs = length l.
Proof.
  revert bs. induction l as [|a l IH]; simpl; intros bs H.
  - now inversion H.
  - destruct (f a); simpl in H; [|discriminate].
    destruct (mapM f l); simpl in H; [|discriminate].
    inversion H. simpl. f_equal. now apply IH.
Qed.

End Loops.

(** ** The Field Mapping Resolver *)

Section Resolver.

Import JsString JsNumber.

Variable years : list JsNum.

Lemma setField_missing row measure key index :
  row !! index = None ->
  setSourcedField years row measure (key, Column index)
  = Throw (missingColumn index).
Proof. intros H. simpl. now rewrite H. Qed.

Lemma setField_empty row measure key index :
  row !! index = Some "" ->
  setSourcedField years row measure (key, Column index) = Normal measure.
Proof. intros H. simpl. now rewrite H. Qed.

Lemma setField_undefined row measure key index mappings dflt :
  row !! index = None ->
  setSourcedField years row measure (key, ColumnSpec index mappings dflt)
  = Throw (NativeTypeError "trim").
Proof. intros H. simpl. rewrite H. now destruct mappings. Qed.

(** An entry leaves the fields of other names as they are. *)
Lemma setField_other row measure entry measure' key :
  setSourcedField years row measure entry = Normal measure' ->
  entry.1 <> key -> measure' !! key = measure !! key.
Proof.
  destruct entry as [k [index | index mappings dflt]]; simpl; intros H Hk.
  - destruct (row !! index) as [[|c input]|]; try discriminate.
    + now inversion H.
    + destruct (mapInput _ _); simpl in H; [|discriminate].
      inversion H. now apply lookup_insert_ne.
  - match type of H with bind ?c _ = _ => destruct c end;
      simpl in H; [|discriminate].
    inversion H. now apply lookup_insert_ne.
Qed.

(** The entries leave a field as it is when each entry of its name is a
    direct one whose cell is the empty string. *)
Lemma sourcedFields_skip row fields key :
  (forall columnObject, (key, columnObject) ∈ fields ->
     exists index, columnObject = Column index /\ row !! index = Some "") ->
  forall measure measure',
    foldM (setSourcedField years row) measure fields = Normal measure' ->
    measure' !! key = measure !! key.
Proof.
  induction fields as [|entry fields IH]; intros Hkey measure measure' H.
  - now inversion H.
  - simpl in H.
    destruct (setSourcedField years row measure entry) as [m1|] eqn:E1;
      simpl in H; [|discriminate].
    rewrite (IH (fun co Hin => Hkey co (list_elem_of_further _ _ _ Hin))
               _ _ H).
    destruct entry as [k co]. destruct (decide (k = key)) as [->|Hne].
    + destruct (Hkey co) as (index & -> & Hcell); [left|].
      rewrite (setField_empty _ _ _ _ Hcell) in E1. now inversion E1.
    + now apply (setField_other _ _ _ _ _ E1).
Qed.

Lemma constantFields_other (constants : list (string * JsValue)) key :
  key ∉ constants.*1 ->
  forall measure : Measure,
    fold_left (fun m kv => <[kv.1 := kv.2]> m) constants measure !! key
    = measure !! key.
Proof.
  induction constants as [|[k v] constants IH]; intros Hkey measure;
    [reflexivity|].
  simpl. rewrite IH by (intros Hin; apply Hkey; now right).
  apply lookup_insert_ne. intros ->. apply Hkey. now left.
Qed.

(** With field names that are all different, the entries of one name are
    one entry. *)
Lemma NoDup_fst_unique (fields : list (string * ColumnObject)) key co co' :
  NoDup fields.*1 -> (key, co) ∈ fields -> (key, co') ∈ fields -> co' = co.
Proof.
  intros Hnd H1 H2.
  induction fields as [|[k c] fields IH]; [inversion H1|].
  simpl in Hnd. apply NoDup_cons in Hnd as [Hk Hnd].
  apply elem_of_cons in H1 as [H1|H1]; apply elem_of_cons in H2 as [H2|H2].
  - congruence.
  - inversion H1; subst. exfalso. apply Hk.
    apply list_elem_of_fmap. now exists (k, co').
  - inversion H2; subst. exfalso. apply Hk.
    apply list_elem_of_fmap. now exists (k, co).
  - now apply IH.
Qed.

(** C2. For every row and every direct entry of the mapping whose column
    is not in the row, the resolver throws the error that names that
    column; the record of the row is not built, whatever the entries
    around it, and with it the collection. *)
Theorem missing_column_error (row : list string) (key : string)
    (index : nat) :
  row !! index = None ->
  (forall measure,
      setSourcedField years row measure (key, Column index)
      = Throw (Error ("Column " +:+ ofIndex index +:+
                      " does not exist in source data")))
  /\ (forall before after constants,
        exists e,
          buildMeasure years (before ++ (key, Column index) :: after)
            constants row
          = Throw e
          /\ (forall measure,
                foldM (setSourcedField years row) ∅ before = Normal measure ->
                e = Error ("Column " +:+ ofIndex index +:+
                           " does not exist in source data")))
  /\ (forall qualityPath strataPath config rows rows' strataRows,
        (key, Column index) ∈ sourced_fields config ->
        exists e,
          convertWith years qualityPath strataPath config
            (rows ++ row :: rows') strataRows = Throw e).
Proof.
  intros Hcell.
  assert (Hbuild : forall before after constants,
    exists e,
      buildMeasure years (before ++ (key, Column index) :: after)
        constants row = Throw e
      /\ (forall measure,
            foldM (setSourcedField years row) ∅ before = Normal measure ->
            e = missingColumn index)).
  { intros before after constants. unfold buildMeasure.
    destruct (foldM_throws (setSourcedField years row) ∅ before
                (key, Column index) after
                (missingColumn index)) as (e & -> & He).
    - intros measure. now apply setField_missing.
    - exists e. split; [reflexivity | exact He]. }
  split; [|split].
  - intros measure. now apply setField_missing.
  - exact Hbuild.
  - intros qualityPath strataPath config rows rows' strataRows Hin.
    apply list_elem_of_split in Hin as (before & after & Hfields).
    destruct (Hbuild before after (constant_fields config)) as (e & He & _).
    unfold convertWith. rewrite Hfields.
    destruct (mapM_throws
                (buildMeasure years (before ++ (key, Column index) :: after)
                   (constant_fields config)) rows row rows' e He)
      as (e' & ->).
    now exists e'.
Qed.

(** C5. For every row and every entry of the mapping with an index and
    a default and no table, when the cell normalizes to a value that
    counts as false (false, 0, null or the empty string), the field is
    set to the default of the entry: a false or a 0 that the cell really
    holds is replaced like a cell that holds nothing. *)
Theorem default_replaces_falsy (row : list string) (key : string)
    (index : nat) (dflt : JsValue) (measure : Measure) (raw : string)
    (value : JsValue) :
  row !! index = Some raw ->
  mapInput years (Some raw) = Normal value ->
  Spec.falsy value ->
  setSourcedField years row measure (key, ColumnSpec index None dflt)
  = Normal (<[key := dflt]> measure).
Proof.
  intros Hcell Hvalue Hfalsy. simpl. rewrite Hcell, Hvalue. simpl.
  assert (Hbool : JsValues.ToBoolean value = false).
  { destruct Hfalsy as [-> | [(n & -> & Hn) | [-> | ->]]];
      try reflexivity.
    simpl. now rewrite Hn. }
  unfold JsValues.or. now rewrite Hbool.
Qed.

(** C10. For every entry of the mapping that is not a direct one, with
    or without a table, when the row has no cell at the index of the
    entry the resolver throws the TypeError of the engine for [trim]
    called on [undefined]: it does not throw the error that names the
    column, and it does not set the field to the default. So does the
    building of the record, when the entries before this one have
    completed. *)
Theorem undefined_cell_type_error (row : list string) (key : string)
    (index : nat) (mappings : option (gmap string string))
    (dflt : JsValue) :
  row !! index = None ->
  (forall measure,
      setSourcedField years row measure (key, ColumnSpec index mappings dflt)
      = Throw (NativeTypeError "trim")
      /\ setSourcedField years row measure (key, ColumnSpec index mappings dflt)
         <> Throw (missingColumn index)
      /\ setSourcedField years row measure (key, ColumnSpec index mappings dflt)
         <> Normal (<[key := dflt]> measure))
  /\ (forall before after constants measure,
        foldM (setSourcedField years row) ∅ before = Normal measure ->
        buildMeasure years
          (before ++ (key, ColumnSpec index mappings dflt) :: after)
          constants row
        = Throw (NativeTypeError "trim")).
Proof.
  intros Hcell. split.
  - intros measure. rewrite (setField_undefined _ _ _ _ _ _ Hcell).
    repeat split; discriminate.
  - intros before after constants measure Hbefore. unfold buildMeasure.
    rewrite foldM_app, Hbefore. cbn [bind foldM].
    now rewrite (setField_undefined _ _ _ _ _ _ Hcell).
Qed.

(** The table of an entry is looked up at the cell trimmed and in lower
    case; the value found, or the default when there is none or when it
    counts as false, is the field. *)
Lemma setField_table row measure key index table dflt raw :
  row !! index = Some raw ->
  setSourcedField years row measure (key, ColumnSpec index (Some table) dflt)
  = Normal
      (<[key := JsValues.or
                  (JsValues.getProperty table (toLowerCase (trim raw)))
                  dflt]> measure).
Proof. intros Hcell. simpl. now rewrite Hcell. Qed.

(** A cell whose case alone differs is looked up alike. *)
Lemma setField_table_case row row' measure key index table dflt raw raw' :
  row !! index = Some raw -> row' !! index = Some raw' ->
  toLowerCase (trim raw) = toLowerCase (trim raw') ->
  setSourcedField years row measure (key, ColumnSpec index (Some table) dflt)
  = setSourcedField years row' measure
      (key, ColumnSpec index (Some table) dflt).
Proof.
  intros H H' Heq.
  rewrite (setField_table _ _ _ _ _ _ _ H), (setField_table _ _ _ _ _ _ _ H').
  now rewrite Heq.
Qed.

(** A label of the table is the field. *)
Lemma setField_table_found row measure key index table dflt raw label :
  row !! index = Some raw ->
  table !! toLowerCase (trim raw) = Some label -> label <> "" ->
  setSourcedField years row measure (key, ColumnSpec index (Some table) dflt)
  = Normal (<[key := VStr label]> measure).
Proof.
  intros Hcell Hlabel Hne. rewrite (setField_table _ _ _ _ _ _ _ Hcell).
  unfold JsValues.getProperty, JsValues.or. rewrite Hlabel. simpl.
  destruct (String.eqb_spec label ""); [contradiction | reflexivity].
Qed.

(** The default is the field when the cell is no key of the table and no
    name of a property that the table inherits. *)
Lemma setField_table_default row measure key index table dflt raw :
  row !! index = Some raw ->
  table !! toLowerCase (trim raw) = None ->
  JsValues.assoc JsValues.objectPrototype (toLowerCase (trim raw)) = None ->
  setSourcedField years row measure (key, ColumnSpec index (Some table) dflt)
  = Normal (<[key := dflt]> measure).
Proof.
  intros Hcell Hown Hproto. rewrite (setField_table _ _ _ _ _ _ _ Hcell).
  unfold JsValues.getProperty. now rewrite Hown, Hproto.
Qed.

End Resolver.

(** ** The Sub-record Merger *)

Section Merger.

Import JsString.

Variables qualityPath strataPath : string.

Lemma hasMeasureId_spec measureId (measure : Measure) :
  hasMeasureId measureId measure = true
  <-> measure !! "measureId" = Some (VStr measureId).
Proof.
  unfold hasMeasureId.
  destruct (measure !! "measureId") as [[| | | |s| | |]|];
    try (split; [discriminate | congruence]).
  rewrite String.eqb_eq. split; congruence.
Qed.

Lemma findIndex_None measureId (measures : list Measure) :
  (forall measure, measure ∈ measures ->
     measure !! "measureId" <> Some (VStr measureId)) ->
  findIndex measureId measures = None.
Proof.
  induction measures as [|m measures IH]; intros H; [reflexivity|].
  simpl. destruct (hasMeasureId measureId m) eqn:E.
  - apply hasMeasureId_spec in E. exfalso. apply (H m); [left | exact E].
  - rewrite IH; [reflexivity|]. intros m' Hm'. apply H. now right.
Qed.

(** [findIndex] finds the first measure of the identifier. *)
Lemma findIndex_first measureId (measures : list Measure) i measure :
  measures !! i = Some measure ->
  measure !! "measureId" = Some (VStr measureId) ->
  (forall j other, j < i -> measures !! j = Some other ->
     other !! "measureId" <> Some (VStr measureId)) ->
  findIndex measureId measures = Some i.
Proof.
  revert i. induction measures as [|m measures IH]; intros i Hi Hid Hfirst;
    [discriminate|].
  simpl. destruct i as [|i].
  - inversion Hi; subst m.
    apply hasMeasureId_spec in Hid. now rewrite Hid.
  - destruct (hasMeasureId measureId m) eqn:E.
    + apply hasMeasureId_spec in E. exfalso.
      apply (Hfirst 0 m); [lia | reflexivity | exact E].
    + rewrite (IH i Hi Hid); [reflexivity|].
      intros j other Hj Hother. apply (Hfirst (S j)); [lia | exact Hother].
  Qed.

Lemma pushStratum_other measure stratumName description measure' key :
  pushStratum measure stratumName description = Normal measure' ->
  key <> "strata" -> measure' !! key = measure !! key.
Proof.
  unfold pushStratum. intros H Hkey. revert H.
  destruct (JsValues.ToBoolean _);
    match goal with
    | |- context [match ?m !! "strata" with _ => _ end] =>
        destruct (m !! "strata") as [[| | | | |strata| |]|]
    end; try discriminate;
    intros H; inversion H;
    repeat (rewrite lookup_insert_ne by congruence); reflexivity.
Qed.

(** The merger changes no field but [strata], and moves no measure. *)
Lemma addStratum_fieldValues key measures row measures' :
  key <> "strata" ->
  addStratum qualityPath strataPath measures row = Normal measures' ->
  fieldValues key measures' = fieldValues key measures.
Proof.
  intros Hkey. unfold addStratum.
  destruct (row !! 0) as [[|c cell]|]; try (intros H; now inversion H).
  destruct (call_trim (Some _)) as [measureId|]; simpl; [|discriminate].
  destruct (call_trim (row !! 1)) as [stratumName|]; simpl; [|discriminate].
  destruct (call_trim (row !! 3)) as [description|]; simpl; [|discriminate].
  destruct (findIndex measureId measures) as [i|]; [|discriminate].
  destruct (measures !! i) as [measure|] eqn:Hi;
    [|intros H; now inversion H].
  destruct (pushStratum measure stratumName description) as [measure'|] eqn:E;
    simpl; [|discriminate].
  intros H. inversion H. unfold fieldValues.
  rewrite list_fmap_insert, (pushStratum_other _ _ _ _ key E Hkey).
  apply list_insert_id. now rewrite list_lookup_fmap, Hi.
Qed.

Lemma addAll_fieldValues key strataRows measures measures' :
  key <> "strata" ->
  addMultiPerformanceRateStrata qualityPath strataPath measures strataRows
  = Normal measures' ->
  fieldValues key measures' = fieldValues key measures.
Proof.
  intros Hkey. unfold addMultiPerformanceRateStrata. revert measures.
  induction strataRows as [|row strataRows IH];
    intros measures H; cbn [foldM] in H.
  - now inversion H.
  - destruct (addStratum qualityPath strataPath measures row) as [m1|] eqn:E;
      cbn [bind] in H;
      [|discriminate].
    rewrite (IH _ H). now apply (addStratum_fieldValues key _ row).
Qed.

Lemma addAll_measureIds strataRows measures measures' :
  addMultiPerformanceRateStrata qualityPath strataPath measures strataRows
  = Normal measures' ->
  measureIds measures' = measureIds measures.
Proof. now apply addAll_fieldValues. Qed.

Lemma unmatched_measureIds measureId (measures measures' : list Measure) :
  measureIds measures' = measureIds measures ->
  (forall measure, measure ∈ measures ->
     measure !! "measureId" <> Some (VStr measureId)) ->
  forall measure, measure ∈ measures' ->
    measure !! "measureId" <> Some (VStr measureId).
Proof.
  intros Hids H measure Hin Hid.
  assert (Hin' : Some (VStr measureId) ∈ measureIds measures').
  { apply list_elem_of_fmap. exists measure. now split. }
  rewrite Hids in Hin'. apply list_elem_of_fmap in Hin' as (m & Hm & Hmin).
  now apply (H m).
Qed.

Lemma addStratum_unmatched measures row key stratumName description :
  row !! 0 = Some key -> key <> "" ->
  row !! 1 = Some stratumName -> row !! 3 = Some description ->
  (forall measure, measure ∈ measures ->
     measure !! "measureId" <> Some (VStr (trim key))) ->
  addStratum qualityPath strataPath measures row
  = Throw (unknownMeasure (trim key) qualityPath strataPath).
Proof.
  intros H0 Hkey H1 H3 Hnone. unfold addStratum.
  rewrite H0, H1, H3. destruct key as [|c key]; [contradiction|].
  cbn [call_trim bind]. now rewrite (findIndex_None _ _ Hnone).
Qed.

Lemma addStratum_blank measures row :
  row !! 0 = None \/ row !! 0 = Some "" ->
  addStratum qualityPath strataPath measures row = Normal measures.
Proof. unfold addStratum. now intros [-> | ->]. Qed.

(** C8. For every row of the strata file: the merger skips the row when
    its cell 0 is not there or is the empty string; otherwise, with the
    key of cell 0, the name of cell 1 and the description of cell 3 all
    trimmed, it appends the stratum of that name and that description to
    the strata of the first measure whose [measureId] is the key, a
    measure without strata getting the list of this one stratum. The
    measure [M1] and the row of [M1], [Stratum 1], [x], [desc] give the
    measure [M1] with the one stratum [Stratum 1], [desc]. *)
Theorem addStratum_appends (measures : list Measure) (row : list string) :
  (row !! 0 = None \/ row !! 0 = Some "" ->
   addStratum qualityPath strataPath measures row = Normal measures)
  /\ (forall key stratumName description i measure strata,
        row !! 0 = Some key -> key <> "" ->
        row !! 1 = Some stratumName -> row !! 3 = Some description ->
        measures !! i = Some measure ->
        measure !! "measureId" = Some (VStr (trim key)) ->
        (forall j other, j < i -> measures !! j = Some other ->
           other !! "measureId" <> Some (VStr (trim key))) ->
        (measure !! "strata" = None /\ strata = []
         \/ measure !! "strata" = Some (VArr strata)) ->
        addStratum qualityPath strataPath measures row
        = Normal
            (<[i := <["strata" :=
                        VArr (strata ++
                              [stratum (trim stratumName)
                                 (trim description)])]> measure]>
               measures))
  /\ addMultiPerformanceRateStrata qualityPath strataPath
       [ {["measureId" := VStr "M1"]} ]
       [ ["M1"; "Stratum 1"; "x"; "desc"] ]
     = Normal [ <["strata" := VArr [stratum "Stratum 1" "desc"]]>
                  {["measureId" := VStr "M1"]} ].
Proof.
  split; [apply addStratum_blank | split; [|reflexivity]].
  intros key stratumName description i measure strata
    H0 Hkey H1 H3 Hi Hid Hfirst Hstrata.
  unfold addStratum. rewrite H0, H1, H3.
  destruct key as [|c key]; [contradiction|].
  cbn [call_trim bind].
  rewrite (findIndex_first _ _ _ _ Hi Hid Hfirst), Hi.
  unfold pushStratum, stratum.
  destruct Hstrata as [[Hnone ->] | Hsome].
  - rewrite Hnone. cbn [default from_option id JsValues.ToBoolean].
    rewrite lookup_insert_eq. cbn [bind app].
    now rewrite insert_insert_eq.
  - rewrite Hsome. cbn [default from_option id JsValues.ToBoolean].
    now rewrite Hsome.
Qed.

End Merger.

(** ** The run *)

Section Run.

Import JsString.

Variable years : list JsNumber.JsNum.
Variables qualityPath strataPath outputPath : string.
Variable resolvePath : string -> string.
Variable parse : string -> completion (list (list string)).
Variable stringify : list Measure -> string.

(** C3. For every row and every direct entry of the mapping whose cell
    is the empty string, the entry sets no field; the record built from
    the row has no field of that name, and neither has the record of the
    row in the collection that the conversion returns: the field names of
    the mapping are different from each other, from those of the constant
    fields and from those of the list fields. *)
Theorem empty_cell_omits_field (row : list string) (key : string)
    (index : nat) :
  row !! index = Some "" ->
  (forall measure,
      setSourcedField years row measure (key, Column index) = Normal measure)
  /\ (forall fields constants measure,
        (key, Column index) ∈ fields ->
        NoDup fields.*1 ->
        key ∉ constants.*1 ->
        key <> "submissionMethods" -> key <> "measureSets" ->
        buildMeasure years fields constants row = Normal measure ->
        measure !! key = None)
  /\ (forall config rows strataRows measures i,
        (key, Column index) ∈ sourced_fields config ->
        NoDup (sourced_fields config).*1 ->
        key ∉ (constant_fields config).*1 ->
        key <> "submissionMethods" -> key <> "measureSets" ->
        key <> "strata" ->
        rows !! i = Some row ->
        convertWith years qualityPath strataPath config rows strataRows
        = Normal measures ->
        exists measure, measures !! i = Some measure /\ measure !! key = None).
Proof.
  intros Hcell.
  assert (Hbuilt : forall fields constants measure,
    (key, Column index) ∈ fields ->
    NoDup fields.*1 ->
    key ∉ constants.*1 ->
    key <> "submissionMethods" -> key <> "measureSets" ->
    buildMeasure years fields constants row = Normal measure ->
    measure !! key = None).
  { intros fields constants measure Hin Hnd Hconst Hsm Hms.
    unfold buildMeasure.
    destruct (foldM (setSourcedField years row) ∅ fields) as [m1|] eqn:E1;
      simpl; [|discriminate].
    destruct (getCheckedColumns _ row SUBMISSION_METHODS);
      simpl; [|discriminate].
    destruct (getCheckedColumns _ row MEASURE_SETS);
      simpl; [|discriminate].
    intros H. inversion H. subst measure.
    rewrite lookup_insert_ne by congruence.
    rewrite lookup_insert_ne by congruence.
    rewrite constantFields_other by assumption.
    rewrite (sourcedFields_skip years row fields key) with (measure := ∅)
      by (assumption ||
          (intros co Hco; exists index; split; [|assumption];
           now apply (NoDup_fst_unique fields key (Column index) co))).
    apply lookup_empty. }
  split; [|split].
  - intros measure. now apply setField_empty.
  - exact Hbuilt.
  - intros config rows strataRows measures i Hin Hnd Hconst Hsm Hms Hst Hrow.
    unfold convertWith.
    destruct (mapM _ rows) as [built|] eqn:Hmap; cbn [bind]; [|discriminate].
    intros Hall.
    destruct (mapM_lookup _ _ _ _ _ Hmap Hrow) as (measure & Hmeasure & Hi).
    apply (addAll_fieldValues qualityPath strataPath key) in Hall;
      [|assumption].
    assert (Hkey : fieldValues key measures !! i = Some None).
    { rewrite Hall. unfold fieldValues. rewrite list_lookup_fmap, Hi. simpl.
      f_equal. now apply (Hbuilt _ _ _ Hin Hnd Hconst Hsm Hms Hmeasure). }
    unfold fieldValues in Hkey. rewrite list_lookup_fmap in Hkey.
    destruct (measures !! i) as [final|]; [|discriminate].
    exists final. split; [reflexivity|]. simpl in Hkey. congruence.
Qed.

(** A row with a key and without a name or a description throws before
    any measure is looked for. *)
Lemma addStratum_short measures row key :
  row !! 0 = Some key -> key <> "" ->
  row !! 1 = None \/ row !! 3 = None ->
  addStratum qualityPath strataPath measures row
  = Throw (NativeTypeError "trim").
Proof.
  intros H0 Hkey Hshort. unfold addStratum. rewrite H0.
  destruct key as [|c key]; [contradiction|]. cbn [call_trim bind].
  destruct (row !! 1) as [stratumName|]; cbn [call_trim bind];
    [|reflexivity].
  destruct Hshort as [H|H]; [discriminate H|]. now rewrite H.
Qed.

(** The error of a row whose key is the [measureId] of no measure is the
    same on all measures with these identifiers. *)
Lemma addStratum_unmatched_error measures row key :
  row !! 0 = Some key -> key <> "" ->
  (forall measure, measure ∈ measures ->
     measure !! "measureId" <> Some (VStr (trim key))) ->
  exists e,
    addStratum qualityPath strataPath measures row = Throw e
    /\ forall measures',
         measureIds measures' = measureIds measures ->
         addStratum qualityPath strataPath measures' row = Throw e.
Proof.
  intros H0 Hkey Hnone.
  destruct (row !! 1) as [stratumName|] eqn:H1;
    [destruct (row !! 3) as [description|] eqn:H3|].
  - exists (unknownMeasure (trim key) qualityPath strataPath). split.
    + now apply (addStratum_unmatched _ _ measures row key stratumName
                   description).
    + intros measures' Hids.
      apply (addStratum_unmatched _ _ measures' row key stratumName
               description H0 Hkey H1 H3).
      now apply (unmatched_measureIds (trim key) measures).
  - exists (NativeTypeError "trim").
    split; [|intros measures' _]; apply (addStratum_short _ row key); auto.
  - exists (NativeTypeError "trim").
    split; [|intros measures' _]; apply (addStratum_short _ row key); auto.
Qed.

(** C7, as the code has it. For every row of the strata file whose key
    (cell 0, not empty) is, once trimmed, the [measureId] of no measure,
    the merger throws: the error that names the key, the file of the
    measures and the file of the strata when the row has its name (cell
    1) and its description (cell 3), and the TypeError of the engine for
    [trim] called on [undefined] when it lacks one of them, the two cells
    being trimmed before the measure is looked for. The merger of all rows
    throws, this error of the row unless a row before has thrown; and the
    run throws and leaves the disk as it was. *)
Theorem unresolved_key_error (measures : list Measure) (row : list string)
    (key : string) :
  row !! 0 = Some key -> key <> "" ->
  (forall measure, measure ∈ measures ->
     measure !! "measureId" <> Some (VStr (trim key))) ->
  (is_Some (row !! 1) -> is_Some (row !! 3) ->
   addStratum qualityPath strataPath measures row
   = Throw (TypeError ("Measure id: " +:+ trim key +:+
                       " does not exist in " +:+ qualityPath +:+
                       " but does exist in " +:+ strataPath)))
  /\ (row !! 1 = None \/ row !! 3 = None ->
      addStratum qualityPath strataPath measures row
      = Throw (NativeTypeError "trim"))
  /\ (forall before after,
        exists e,
          addMultiPerformanceRateStrata qualityPath strataPath measures
            (before ++ row :: after) = Throw e
          /\ (forall measures',
                addMultiPerformanceRateStrata qualityPath strataPath measures
                  before = Normal measures' ->
                addStratum qualityPath strataPath measures row = Throw e))
  /\ (forall config disk qualityRows before after,
        getCsv resolvePath parse disk qualityPath 2 = Normal qualityRows ->
        getCsv resolvePath parse disk strataPath 2
        = Normal (before ++ row :: after) ->
        mapM (buildMeasure years (sourced_fields config)
                (constant_fields config)) qualityRows
        = Normal measures ->
        exists e,
          importWith years qualityPath strataPath outputPath resolvePath
            parse stringify config disk
          = (Throw e, disk)).
Proof.
  intros H0 Hkey Hnone.
  destruct (addStratum_unmatched_error measures row key H0 Hkey Hnone)
    as (e & He & Hsame).
  assert (Hall : forall before after,
    exists e',
      addMultiPerformanceRateStrata qualityPath strataPath measures
        (before ++ row :: after) = Throw e'
      /\ (forall measures',
            addMultiPerformanceRateStrata qualityPath strataPath measures
              before = Normal measures' ->
            addStratum qualityPath strataPath measures row = Throw e')).
  { intros before after. unfold addMultiPerformanceRateStrata.
    rewrite foldM_app.
    destruct (foldM (addStratum qualityPath strataPath) measures before)
      as [measures'|e'] eqn:E; cbn [bind foldM].
    - rewrite (Hsame measures')
        by now apply (addAll_measureIds qualityPath strataPath before).
      exists e. split; [reflexivity | intros; exact He].
    - exists e'. split; [reflexivity | discriminate]. }
  split; [|split; [|split]].
  - intros [stratumName H1] [description H3].
    now apply (addStratum_unmatched _ _ measures row key stratumName
                 description).
  - now apply (addStratum_short measures row key).
  - exact Hall.
  - intros config disk qualityRows before after Hq Hs Hbuilt.
    destruct (Hall before after) as (e' & He' & _). exists e'.
    unfold importWith, convertWith. rewrite Hq, Hs. cbn [bind].
    rewrite Hbuilt. cbn [bind]. now rewrite He'.
Qed.

End Run.

(** ** Objects with index keys *)

Section IndexKeys.

Import JsValues.

Implicit Types (o literal : list (nat * string)) (k key : nat).

Lemma putEntry_keys k v o key :
  key ∈ (putEntry k v o).*1 <-> key = k \/ key ∈ o.*1.
Proof.
  induction o as [|[k' v'] o IH]; simpl.
  - rewrite list_elem_of_singleton, elem_of_nil. tauto.
  - destruct (Nat.ltb_spec k k'); [|destruct (Nat.eqb_spec k k')]; simpl.
    + rewrite elem_of_cons. reflexivity.
    + subst k'. rewrite !elem_of_cons. tauto.
    + rewrite !elem_of_cons, IH. tauto.
Qed.

Lemma putEntry_sorted k v o :
  StronglySorted lt o.*1 -> StronglySorted lt (putEntry k v o).*1.
Proof.
  induction o as [|[k' v'] o IH]; simpl; intros Hs.
  - repeat constructor.
  - apply StronglySorted_inv in Hs as [Hs Hall].
    destruct (Nat.ltb_spec k k'); [|destruct (Nat.eqb_spec k k')]; simpl.
    + constructor; [now constructor|].
      constructor; [assumption|].
      eapply Forall_impl; [exact Hall | simpl; lia].
    + subst k'. now constructor.
    + constructor; [now apply IH|].
      apply Forall_forall. intros key Hkey.
      apply putEntry_keys in Hkey as [->|Hkey]; [lia|].
      rewrite Forall_forall in Hall. now apply Hall.
Qed.

Lemma putEntry_last k v o :
  Forall (fun k' => k' < k) o.*1 -> putEntry k v o = o ++ [(k, v)].
Proof.
  induction o as [|[k' v'] o IH]; simpl; intros Hall; [reflexivity|].
  apply Forall_cons in Hall as [Hk' Hall].
  destruct (Nat.ltb_spec k k'); [lia|].
  destruct (Nat.eqb_spec k k'); [lia|].
  now rewrite IH.
Qed.

(** Giving a value to a new key adds an entry and keeps the others. *)
Lemma putEntry_Permutation k v o :
  k ∉ o.*1 -> putEntry k v o ≡ₚ (k, v) :: o.
Proof.
  induction o as [|[k' v'] o IH]; simpl; intros Hk; [reflexivity|].
  apply not_elem_of_cons in Hk as [Hne Hk].
  destruct (Nat.ltb_spec k k'); [reflexivity|].
  destruct (Nat.eqb_spec k k'); [contradiction|].
  rewrite (IH Hk). apply perm_swap.
Qed.

Lemma fold_putEntry_keys literal o key :
  key ∈ (fold_left (fun o kv => putEntry kv.1 kv.2 o) literal o).*1
  <-> key ∈ o.*1 \/ key ∈ literal.*1.
Proof.
  revert o. induction literal as [|[k v] literal IH]; intros o; simpl.
  - rewrite elem_of_nil. tauto.
  - rewrite IH, putEntry_keys, elem_of_cons. tauto.
Qed.

Lemma fold_putEntry_sorted literal o :
  StronglySorted lt o.*1 ->
  StronglySorted lt
    (fold_left (fun o kv => putEntry kv.1 kv.2 o) literal o).*1.
Proof.
  revert o. induction literal as [|[k v] literal IH]; intros o Hs; simpl;
    [assumption|].
  now apply IH, putEntry_sorted.
Qed.

Lemma fold_putEntry_Permutation literal o :
  NoDup (o.*1 ++ literal.*1) ->
  fold_left (fun o kv => putEntry kv.1 kv.2 o) literal o ≡ₚ o ++ literal.
Proof.
  revert o. induction literal as [|[k v] literal IH]; intros o Hnd; simpl.
  - now rewrite app_nil_r.
  - simpl in Hnd. rewrite <- Permutation_middle in Hnd.
    apply NoDup_cons in Hnd as [Hk Hnd].
    assert (Hfresh : k ∉ o.*1) by (intros Hin; apply Hk, elem_of_app; tauto).
    assert (Hperm := putEntry_Permutation k v o Hfresh).
    rewrite IH.
    + rewrite Hperm. simpl. apply Permutation_middle.
    + rewrite Hperm. simpl. now apply NoDup_cons.
Qed.

Lemma fold_putEntry_ascending literal o :
  StronglySorted lt (o.*1 ++ literal.*1) ->
  fold_left (fun o kv => putEntry kv.1 kv.2 o) literal o = o ++ literal.
Proof.
  revert o. induction literal as [|[k v] literal IH]; intros o Hs; simpl.
  - now rewrite app_nil_r.
  - simpl in Hs. rewrite putEntry_last.
    + rewrite IH; [now rewrite <- app_assoc|].
      now rewrite fmap_app, <- app_assoc.
    + apply Forall_forall. intros k' Hk'.
      apply (StronglySorted_app_1_elem_of lt o.*1 (k :: literal.*1));
        [assumption | assumption | now left].
Qed.

(** The entries of an object are visited in ascending order of the
    keys. *)
Lemma ownEntries_sorted literal : StronglySorted lt (ownEntries literal).*1.
Proof. apply fold_putEntry_sorted. constructor. Qed.

(** They are under the keys of the literal. *)
Lemma ownEntries_keys literal key :
  key ∈ (ownEntries literal).*1 <-> key ∈ literal.*1.
Proof.
  unfold ownEntries. rewrite fold_putEntry_keys. simpl.
  rewrite elem_of_nil. tauto.
Qed.

(** They are the entries of the literal, when it gives each key once. *)
Lemma ownEntries_Permutation literal :
  NoDup literal.*1 -> ownEntries literal ≡ₚ literal.
Proof. intros Hnd. now apply (fold_putEntry_Permutation literal []). Qed.

(** They are in the order of the literal, when this is the ascending
    one. *)
Lemma ownEntries_ascending literal :
  StronglySorted lt literal.*1 -> ownEntries literal = literal.
Proof. intros Hs. now apply (fold_putEntry_ascending literal []). Qed.

End IndexKeys.

(** ** The Multi-Column Flag Aggregator *)

Section Aggregator.

Import JsValues.

Variable years : list JsNumber.JsNum.

Lemma checkColumn_present row checkedColumns key value raw :
  row !! key = Some raw ->
  checkColumn years row checkedColumns (key, value)
  = Normal (if isChecked years row key then checkedColumns ++ [value]
            else checkedColumns).
Proof.
  intros Hcell. unfold checkColumn, isChecked. rewrite Hcell.
  destruct (mapInput_total years raw) as [v ->].
  destruct v as [| |[|]| | | | |]; reflexivity.
Qed.

Lemma checkColumn_missing row checkedColumns key value :
  row !! key = None ->
  checkColumn years row checkedColumns (key, value)
  = Throw (NativeTypeError "trim").
Proof. intros Hcell. unfold checkColumn. now rewrite Hcell. Qed.

(** With all cells there, the loop gathers the labels of the cells that
    are true, in the order of the entries. *)
Lemma checkColumns_present row entries :
  (forall key, key ∈ entries.*1 -> is_Some (row !! key)) ->
  forall checkedColumns,
    foldM (checkColumn years row) checkedColumns entries
    = Normal (checkedColumns
              ++ (List.filter (fun entry => isChecked years row entry.1)
                    entries).*2).
Proof.
  induction entries as [|[key value] entries IH];
    intros Hcells checkedColumns; cbn [foldM].
  - simpl. now rewrite app_nil_r.
  - destruct (Hcells key) as [raw Hraw]; [now left|].
    rewrite (checkColumn_present _ _ _ _ _ Hraw). cbn [bind].
    rewrite IH by (intros k Hk; apply Hcells; now right).
    cbn [List.filter fst]. destruct (isChecked years row key); [|reflexivity].
    now rewrite <- app_assoc.
Qed.

(** With a cell that is not there, the loop throws. *)
Lemma checkColumns_missing row entries key :
  key ∈ entries.*1 -> row !! key = None ->
  forall checkedColumns,
    foldM (checkColumn years row) checkedColumns entries
    = Throw (NativeTypeError "trim").
Proof.
  induction entries as [|[k value] entries IH];
    intros Hkey Hcell checkedColumns; cbn [foldM].
  - now apply elem_of_nil in Hkey.
  - destruct (row !! k) as [raw|] eqn:Hk.
    + rewrite (checkColumn_present _ _ _ _ _ Hk). cbn [bind].
      apply IH; [|assumption].
      simpl in Hkey. apply elem_of_cons in Hkey as [->|Hkey];
        [congruence | assumption].
    + now rewrite (checkColumn_missing _ _ _ _ Hk).
Qed.

(** C4, as the code has it. The aggregator has no guard for a missing
    column: for every flag-column specification and every row, an entry
    whose column is not in the row makes the aggregator throw the
    TypeError of the engine for [trim] called on [undefined]; it
    completes, with a list of labels, when the row has a cell at every
    column of the specification. *)
Theorem getCheckedColumns_missing_column (row : list string)
    (columnNumberToNameMap : list (nat * string)) :
  (forall key, key ∈ columnNumberToNameMap.*1 -> row !! key = None ->
     getCheckedColumns years row columnNumberToNameMap
     = Throw (NativeTypeError "trim"))
  /\ ((forall key, key ∈ columnNumberToNameMap.*1 -> is_Some (row !! key)) ->
      exists labels,
        getCheckedColumns years row columnNumberToNameMap
        = Normal labels).
Proof.
  unfold getCheckedColumns. split.
  - intros key Hkey Hcell.
    apply (checkColumns_missing row _ key); [|assumption].
    now apply ownEntries_keys.
  - intros Hcells. eexists. apply checkColumns_present.
    intros key Hkey. now apply Hcells, ownEntries_keys.
Qed.

(** C9, as the code has it. For every flag-column specification and
    every row that has a cell at every column of the specification, the
    aggregator returns the labels of the entries of the object whose
    normalized cell is the boolean true, in the order in which the
    entries of an object with index keys are visited: ascending in the
    column number. These entries are under the keys of the literal; they
    are the entries of the literal when it gives each column once, and
    they are in its order when it lists the columns in ascending order. *)
Theorem getCheckedColumns_labels (row : list string)
    (columnNumberToNameMap : list (nat * string)) :
  (forall key, key ∈ columnNumberToNameMap.*1 -> is_Some (row !! key)) ->
  getCheckedColumns years row columnNumberToNameMap
  = Normal (List.filter (fun entry => isChecked years row entry.1)
              (ownEntries columnNumberToNameMap)).*2
  /\ StronglySorted lt (ownEntries columnNumberToNameMap).*1
  /\ (forall key, key ∈ (ownEntries columnNumberToNameMap).*1
                  <-> key ∈ columnNumberToNameMap.*1)
  /\ (NoDup columnNumberToNameMap.*1 ->
      ownEntries columnNumberToNameMap ≡ₚ columnNumberToNameMap)
  /\ (StronglySorted lt columnNumberToNameMap.*1 ->
      getCheckedColumns years row columnNumberToNameMap
      = Normal (List.filter (fun entry => isChecked years row entry.1)
                  columnNumberToNameMap).*2).
Proof.
  intros Hcells.
  assert (Hlabels :
    getCheckedColumns years row columnNumberToNameMap
    = Normal (List.filter (fun entry => isChecked years row entry.1)
                (ownEntries columnNumberToNameMap)).*2).
  { unfold getCheckedColumns. rewrite checkColumns_present; [reflexivity|].
    intros key Hkey. now apply Hcells, ownEntries_keys. }
  split; [exact Hlabels|].
  split; [apply ownEntries_sorted|].
  split; [apply ownEntries_keys|].
  split; [apply ownEntries_Permutation|].
  intros Hs. now rewrite Hlabels, (ownEntries_ascending _ Hs).
Qed.

End Aggregator.

(** ** The properties at sample inputs *)

Lemma missing_column_error_witness :
  (["a"] : list string) !! 1 = None
  /\ setSourcedField Samples.years ["a"] ∅ ("title", Column 1)
     = Throw (Error "Column 1 does not exist in source data").
Proof.
  split; [reflexivity|].
  apply (missing_column_error Samples.years ["a"] "title" 1). reflexivity.
Defined.

Lemma empty_cell_omits_field_witness :
  Samples.rowOf 61 "x" [(1, "")] !! 1 = Some ""
  /\ match buildMeasure Samples.years (sourced_fields CONFIG)
             (constant_fields CONFIG) (Samples.rowOf 61 "x" [(1, "")]) with
     | Normal measure => measure !! "title" = None
     | Throw _ => False
     end.
Proof.
  split; [reflexivity|].
  destruct (buildMeasure Samples.years (sourced_fields CONFIG)
              (constant_fields CONFIG) (Samples.rowOf 61 "x" [(1, "")]))
    as [measure|e] eqn:E.
  - apply (proj1 (proj2 (empty_cell_omits_field Samples.years "quality.csv"
                           "strata.csv" (Samples.rowOf 61 "x" [(1, "")])
                           "title" 1 eq_refl))
             (sourced_fields CONFIG) (constant_fields CONFIG) measure).
    + left.
    + compute_done.
    + compute_done.
    + discriminate.
    + discriminate.
    + exact E.
  - assert (H : match buildMeasure Samples.years (sourced_fields CONFIG)
                      (constant_fields CONFIG)
                      (Samples.rowOf 61 "x" [(1, "")]) with
                | Normal _ => true
                | Throw _ => false
                end = true) by (vm_compute; reflexivity).
    rewrite E in H. discriminate.
Defined.

Lemma default_replaces_falsy_witness :
  (["false"] : list string) !! 0 = Some "false"
  /\ mapInput Samples.years (Some "false") = Normal (VBool false)
  /\ Spec.falsy (VBool false)
  /\ setSourcedField Samples.years ["false"] ∅
       ("isHighPriority", ColumnSpec 0 None (VBool true))
     = Normal (<["isHighPriority" := VBool true]> ∅).
Proof.
  split; [reflexivity|]. split; [reflexivity|]. split; [now left|].
  apply (default_replaces_falsy Samples.years ["false"] "isHighPriority" 0
           (VBool true) ∅ "false" (VBool false));
    [reflexivity | reflexivity | now left].
Defined.

Lemma undefined_cell_type_error_witness :
  (["a"] : list string) !! 1 = None
  /\ setSourcedField Samples.years ["a"] ∅
       ("lastPerformanceYear", ColumnSpec 1 None VNull)
     = Throw (NativeTypeError "trim").
Proof.
  split; [reflexivity|].
  apply (undefined_cell_type_error Samples.years ["a"] "lastPerformanceYear"
           1 None VNull eq_refl).
Defined.

Lemma unresolved_key_error_witness :
  addStratum "quality.csv" "strata.csv" [ {["measureId" := VStr "M1"]} ]
    ["M2"; "Stratum 1"; "x"; "desc"]
  = Throw (TypeError
             ("Measure id: M2 does not exist in quality.csv" +:+
              " but does exist in strata.csv")).
Proof.
  refine (proj1 (unresolved_key_error Samples.years "quality.csv" "strata.csv"
                   "out.json" (fun path => path) (fun _ => Normal [])
                   (fun _ => "") [ {["measureId" := VStr "M1"]} ]
                   ["M2"; "Stratum 1"; "x"; "desc"] "M2" eq_refl _ _) _ _).
  - discriminate.
  - intros measure Hin. apply list_elem_of_singleton in Hin. subst measure.
    vm_compute. discriminate.
  - simpl. eauto.
  - simpl. eauto.
Defined.

Lemma addStratum_appends_witness :
  addStratum "quality.csv" "strata.csv"
    [ {["measureId" := VStr "M0"]};
      <["strata" := VArr [stratum "Stratum 1" "first"]]>
        {["measureId" := VStr "M1"]} ]
    [" M1 "; " Stratum 2 "; "x"; " second "]
  = Normal
      [ {["measureId" := VStr "M0"]};
        <["strata" := VArr [stratum "Stratum 1" "first";
                            stratum "Stratum 2" "second"]]>
          {["measureId" := VStr "M1"]} ].
Proof.
  refine (eq_trans
            (proj1 (proj2 (addStratum_appends "quality.csv" "strata.csv"
                             [ {["measureId" := VStr "M0"]};
                               <["strata" :=
                                   VArr [stratum "Stratum 1" "first"]]>
                                 {["measureId" := VStr "M1"]} ]
                             [" M1 "; " Stratum 2 "; "x"; " second "]))
               " M1 " " Stratum 2 " " second " 1 _
               [stratum "Stratum 1" "first"]
               eq_refl _ eq_refl eq_refl eq_refl _ _ _) _).
  - discriminate.
  - reflexivity.
  - intros j other Hj Hother. destruct j as [|j]; [|lia].
    inversion Hother. subst other. vm_compute. discriminate.
  - right. reflexivity.
  - reflexivity.
Defined.

Lemma getCheckedColumns_missing_column_witness :
  (["x"] : list string) !! 1 = None
  /\ getCheckedColumns Samples.years ["x"] [(0, "a"); (1, "b")]
     = Throw (NativeTypeError "trim").
Proof.
  split; [reflexivity|].
  apply (proj1 (getCheckedColumns_missing_column Samples.years ["x"]
                  [(0, "a"); (1, "b")]) 1); [|reflexivity].
  right. left.
Defined.

(** Columns 10, 11 and 12 with the labels [a], [b] and [c], and a row in
    which the cells 11 and 12 alone are true. *)
Lemma getCheckedColumns_labels_witness :
  getCheckedColumns Samples.years
    (Samples.rowOf 13 "" [(12, "TRUE"); (11, "x")])
    [(10, "a"); (11, "b"); (12, "c")]
  = Normal ["b"; "c"].
Proof.
  refine (eq_trans
            (proj1 (getCheckedColumns_labels Samples.years
                      (Samples.rowOf 13 "" [(12, "TRUE"); (11, "x")])
                      [(10, "a"); (11, "b"); (12, "c")] _)) _).
  - intros key Hkey. apply lookup_lt_is_Some.
    repeat (apply elem_of_cons in Hkey as [->|Hkey]; [simpl; lia|]).
    now apply elem_of_nil in Hkey.
  - reflexivity.
Defined.

(** ** Where the code is not what the specification says *)

(** C4. A row without the cell of a column of the specification: the
    aggregator throws, where the label was to be left out. *)
Lemma getCheckedColumns_missing_column_counterexample :
  (["x"] : list string) !! 1 = None
  /\ getCheckedColumns Samples.years ["x"] [(0, "a"); (1, "b")]
     = Throw (NativeTypeError "trim")
  /\ getCheckedColumns Samples.years ["x"] [(0, "a"); (1, "b")]
     <> Normal ["a"].
Proof. repeat split; discriminate. Qed.

(** C7. A row of the strata file with a key that is the [measureId] of
    no measure, and without a name and a description: the merger throws
    the TypeError of the engine, which names neither the key nor a file,
    where the error of the unknown measure was to be thrown. *)
Lemma unresolved_key_error_counterexample :
  (["M2"] : list string) !! 0 = Some "M2"
  /\ findIndex (JsString.trim "M2") [ {["measureId" := VStr "M1"]} ] = None
  /\ addStratum "quality.csv" "strata.csv" [ {["measureId" := VStr "M1"]} ]
       ["M2"]
     = Throw (NativeTypeError "trim")
  /\ addStratum "quality.csv" "strata.csv" [ {["measureId" := VStr "M1"]} ]
       ["M2"]
     <> Throw (TypeError
                ("Measure id: M2 does not exist in quality.csv" +:+
                 " but does exist in strata.csv")).
Proof. repeat split; discriminate. Qed.

(** C9. A specification that lists column 1 before column 0, and a row in
    which both cells are true: the labels come in the order of the
    columns, not in the order of the specification. *)
Lemma getCheckedColumns_labels_counterexample :
  getCheckedColumns Samples.years ["x"; "x"] [(1, "b"); (0, "a")]
  = Normal ["a"; "b"]
  /\ getCheckedColumns Samples.years ["x"; "x"] [(1, "b"); (0, "a")]
     <> Normal ["b"; "a"].
Proof. split; [reflexivity | discriminate]. Qed.

(** C6. The cells [__proto__] and [constructor] in the column of
    [measureType] are no keys of the table of [measureType], whose entry
    has no default; the field is not [undefined] but what the table
    inherits under these names: its prototype and the function [Object]. *)
Theorem inherited_property_is_not_default :
  measureTypeMappings !! "__proto__" = None
  /\ measureTypeMappings !! "constructor" = None
  /\ ("measureType", ColumnSpec 8 (Some measureTypeMappings) VUndefined)
     ∈ sourced_fields CONFIG
  /\ (exists measure,
        convertQualityStrataCsvsToMeasures Samples.years "quality.csv"
          "strata.csv" [Samples.rowOf 61 "x" [(8, " __PROTO__ ")]] []
        = Normal [measure]
        /\ measure !! "measureType" = Some (VNative "Object.prototype")
        /\ measure !! "measureType" <> Some VUndefined)
  /\ (exists measure,
        convertQualityStrataCsvsToMeasures Samples.years "quality.csv"
          "strata.csv" [Samples.rowOf 61 "x" [(8, "Constructor")]] []
        = Normal [measure]
        /\ measure !! "measureType" = Some (VNative "Object")
        /\ measure !! "measureType" <> Some VUndefined).
Proof.
  split; [reflexivity|]. split; [reflexivity|].
  split; [do 7 right; left|].
  split.
  - assert (H : match convertQualityStrataCsvsToMeasures Samples.years
                        "quality.csv" "strata.csv"
                        [Samples.rowOf 61 "x" [(8, " __PROTO__ ")]] [] with
                | Normal [measure] => measure !! "measureType"
                | _ => None
                end = Some (VNative "Object.prototype"))
      by (vm_compute; reflexivity).
    destruct (convertQualityStrataCsvsToMeasures _ _ _ _ _)
      as [[|measure [|]]|]; try discriminate.
    exists measure. rewrite H. repeat split. discriminate.
  - assert (H : match convertQualityStrataCsvsToMeasures Samples.years
                        "quality.csv" "strata.csv"
                        [Samples.rowOf 61 "x" [(8, "Constructor")]] [] with
                | Normal [measure] => measure !! "measureType"
                | _ => None
                end = Some (VNative "Object"))
      by (vm_compute; reflexivity).
    destruct (convertQualityStrataCsvsToMeasures _ _ _ _ _)
      as [[|measure [|]]|]; try discriminate.
    exists measure. rewrite H. repeat split. discriminate.
Qed.

(** * Further properties of the importer *)

(** ** The normalizer on the forms of a cell *)

Section Cells.

Import JsString JsNumber.

Variable years : list JsNum.

Lemma toLowerChar_idem c : toLowerChar (toLowerChar c) = toLowerChar c.
Proof. each_char c; reflexivity. Qed.

Lemma toLowerCase_idem s : toLowerCase (toLowerCase s) = toLowerCase s.
Proof.
  induction s as [|c s IH]; simpl; [reflexivity|].
  now rewrite toLowerChar_idem, IH.
Qed.

(** What [mapInput] returns, by the cleaned cell. *)
Lemma mapInput_cleaned raw :
  mapInput years (Some raw)
  = let cleaned := toLowerCase (trim raw) in
    Normal
      (if String.eqb cleaned "true" || String.eqb cleaned "x" then VBool true
       else if String.eqb cleaned "false" then VBool false
       else if String.eqb cleaned "null" || String.eqb cleaned "n/a"
       then VNull
       else if includes years (Number cleaned) then VNum (Number cleaned)
       else VStr (trim raw)).
Proof.
  unfold mapInput, cleanInput, call_trim, bind. cbv zeta.
  repeat match goal with
         | |- context [if ?b then _ else _] => destruct b
         end; reflexivity.
Qed.

(** X1. Cleaning twice is cleaning once: the cleaned cell is its own
    cleaned form, and an [undefined] cell throws the first time. *)
Theorem cleanInput_idempotent (input : option string) :
  bind (cleanInput input) (fun cleaned => cleanInput (Some cleaned))
  = cleanInput input.
Proof.
  destruct input as [raw|]; [|reflexivity].
  unfold cleanInput, call_trim, bind.
  now rewrite <- trim_toLowerCase, toLowerCase_idem, trim_toLowerCase,
    trim_idem.
Qed.

(** X2. The normalizer reads a cell through its trimmed form only: the
    white space around a cell never changes the result. Two cells with
    one cleaned form (equal up to outer white space and case) normalize
    alike, unless both normalize to strings, each to its own trimmed
    spelling. *)
Theorem mapInput_cell_forms :
  (forall raw, mapInput years (Some (trim raw)) = mapInput years (Some raw))
  /\ (forall raw raw',
        toLowerCase (trim raw) = toLowerCase (trim raw') ->
        mapInput years (Some raw) = mapInput years (Some raw')
        \/ (mapInput years (Some raw) = Normal (VStr (trim raw))
            /\ mapInput years (Some raw') = Normal (VStr (trim raw')))).
Proof.
  split.
  - intros raw. rewrite !mapInput_cleaned. now rewrite trim_idem.
  - intros raw raw' Hclean. rewrite !mapInput_cleaned. cbv zeta.
    rewrite <- Hclean.
    repeat match goal with
           | |- context [if ?b then _ else _] => destruct b
           end; auto.
Qed.

(** X3. The values of the normalizer: for every cell that is a string it
    returns true, false, null, a number of the list of valid years, or the
    trimmed cell as a string; a string it returns is returned again when
    it is normalized again. *)
Theorem mapInput_range (raw : string) :
  exists value,
    mapInput years (Some raw) = Normal value
    /\ (value = VBool true \/ value = VBool false \/ value = VNull
        \/ (exists n, value = VNum n /\ includes years n = true)
        \/ (value = VStr (trim raw)
            /\ mapInput years (Some (trim raw)) = Normal value)).
Proof.
  assert (Htrim : mapInput years (Some (trim raw)) = mapInput years (Some raw)).
  { rewrite !mapInput_cleaned. now rewrite trim_idem. }
  rewrite Htrim, mapInput_cleaned. cbv zeta.
  destruct (_ || _); [eauto 10|].
  destruct (String.eqb _ "false"); [eauto 10|].
  destruct (_ || _); [eauto 10|].
  destruct (includes years _) eqn:E; eauto 12.
Qed.

End Cells.

Lemma mapInput_cell_forms_witness :
  JsString.toLowerCase (JsString.trim " N/A ")
  = JsString.toLowerCase (JsString.trim "n/a")
  /\ mapInput Samples.years (Some " N/A ")
     = mapInput Samples.years (Some "n/a").
Proof.
  split; [reflexivity|].
  destruct (proj2 (mapInput_cell_forms Samples.years) " N/A " "n/a" eq_refl)
    as [H | [H _]]; [exact H | discriminate H].
Defined.

(** ** The aggregator: what it returns and what it reads *)

Section Labels.

Import JsValues.

Variable years : list JsNumber.JsNum.

Lemma foldM_ext_in {A S : Type} (f g : S -> A -> completion S) l :
  (forall s a, a ∈ l -> f s a = g s a) ->
  forall s, foldM f s l = foldM g s l.
Proof.
  induction l as [|a l IH]; intros Hfg s; simpl; [reflexivity|].
  rewrite (Hfg s a) by now left.
  destruct (g s a); simpl; [|reflexivity].
  apply IH. intros s' a' Ha'. apply Hfg. now right.
Qed.

Lemma checkColumns_completed row entries checkedColumns labels :
  foldM (checkColumn years row) checkedColumns entries = Normal labels ->
  forall key, key ∈ entries.*1 -> is_Some (row !! key).
Proof.
  intros H key Hkey. destruct (row !! key) as [raw|] eqn:Hcell; [eauto|].
  rewrite (checkColumns_missing years row entries key Hkey Hcell) in H.
  discriminate.
Qed.

Lemma filter_snd_sublist (f : nat * string -> bool) entries :
  (List.filter f entries).*2 `sublist_of` entries.*2.
Proof.
  induction entries as [|entry entries IH]; simpl; [constructor|].
  destruct (f entry); simpl; now constructor.
Qed.

(** X4. The labels that the aggregator returns are labels of the
    specification, each at most as often as the specification has it and
    in the order of its columns: a sublist of the labels of the object,
    and of the labels of the literal when this lists its columns in
    ascending order. It returns only when the row has every column of the
    specification. *)
Theorem getCheckedColumns_sublist (row : list string)
    (columnNumberToNameMap : list (nat * string)) (labels : list string) :
  getCheckedColumns years row columnNumberToNameMap = Normal labels ->
  labels `sublist_of` (ownEntries columnNumberToNameMap).*2
  /\ (StronglySorted lt columnNumberToNameMap.*1 ->
      labels `sublist_of` columnNumberToNameMap.*2)
  /\ (forall key, key ∈ columnNumberToNameMap.*1 -> is_Some (row !! key)).
Proof.
  unfold getCheckedColumns. intros H.
  assert (Hcells := checkColumns_completed _ _ _ _ H).
  rewrite checkColumns_present in H by exact Hcells.
  inversion H; subst labels. simpl.
  split; [apply filter_snd_sublist|]. split.
  - intros Hs. rewrite (ownEntries_ascending _ Hs).
    apply filter_snd_sublist.
  - intros key Hkey. now apply Hcells, ownEntries_keys.
Qed.

(** X5. The aggregator reads the cells at the columns of the
    specification and no other cell: on two rows that hold the same cells
    at these columns it does the same, whether it returns or throws. *)
Theorem getCheckedColumns_agree (row row' : list string)
    (columnNumberToNameMap : list (nat * string)) :
  (forall key, key ∈ columnNumberToNameMap.*1 -> row !! key = row' !! key) ->
  getCheckedColumns years row columnNumberToNameMap
  = getCheckedColumns years row' columnNumberToNameMap.
Proof.
  intros Hcells. unfold getCheckedColumns. apply foldM_ext_in.
  intros checkedColumns [key value] Hin. unfold checkColumn.
  rewrite (Hcells key); [reflexivity|].
  apply ownEntries_keys, list_elem_of_fmap. now exists (key, value).
Qed.

End Labels.

Lemma getCheckedColumns_sublist_witness :
  getCheckedColumns Samples.years ["no"; "x"; "TRUE"]
    [(0, "a"); (1, "b"); (2, "c")]
  = Normal ["b"; "c"]
  /\ ["b"; "c"] `sublist_of` ["a"; "b"; "c"].
Proof.
  split; [reflexivity|].
  apply (proj1 (proj2 (getCheckedColumns_sublist Samples.years
                         ["no"; "x"; "TRUE"] [(0, "a"); (1, "b"); (2, "c")]
                         ["b"; "c"] eq_refl))).
  repeat constructor.
Defined.

Lemma getCheckedColumns_agree_witness :
  getCheckedColumns Samples.years ["x"; "no"; "extra"] [(0, "a"); (1, "b")]
  = getCheckedColumns Samples.years ["x"; "no"] [(0, "a"); (1, "b")].
Proof.
  apply getCheckedColumns_agree. intros key Hkey.
  repeat (apply elem_of_cons in Hkey as [->|Hkey]; [reflexivity|]).
  now apply elem_of_nil in Hkey.
Defined.

(** ** The record of a row *)

Section Records.

Import JsString JsValues.

Variable years : list JsNumber.JsNum.

Lemma setField_present row measure key columnObject raw :
  row !! columnIndex columnObject = Some raw ->
  exists measure',
    setSourcedField years row measure (key, columnObject) = Normal measure'.
Proof.
  destruct columnObject as [index | index [table|] dflt]; simpl; intros ->.
  - destruct raw as [|c raw]; [eauto|].
    destruct (mapInput_total years (String c raw)) as [v ->]. simpl. eauto.
  - simpl. eauto.
  - destruct (mapInput_total years raw) as [v ->]. simpl. eauto.
Qed.

Lemma setField_absent row measure key columnObject :
  row !! columnIndex columnObject = None ->
  exists e, setSourcedField years row measure (key, columnObject) = Throw e.
Proof.
  destruct columnObject as [index | index mappings dflt]; simpl; intros H.
  - rewrite H. eauto.
  - rewrite H. destruct mappings; simpl; eauto.
Qed.

(** What an entry that completes has done to the measure. *)
Lemma setField_Normal row measure key columnObject measure' :
  setSourcedField years row measure (key, columnObject) = Normal measure' ->
  (setsField row columnObject = true
   /\ exists value, measure' = <[key := value]> measure)
  \/ (setsField row columnObject = false /\ measure' = measure).
Proof.
  destruct columnObject as [index | index mappings dflt]; simpl.
  - destruct (row !! index) as [[|c raw]|]; try discriminate.
    + intros H. inversion H. now right.
    + destruct (mapInput years _) as [v|]; simpl; [|discriminate].
      intros H. inversion H. left. eauto.
  - match goal with |- bind ?c _ = _ -> _ => destruct c as [v|] end;
      simpl; [|discriminate].
    intros H. inversion H. left. eauto.
Qed.

Lemma sourcedFields_complete_iff row fields measure :
  (exists measure',
      foldM (setSourcedField years row) measure fields = Normal measure')
  <-> (forall key columnObject,
          (key, columnObject) ∈ fields ->
          columnIndex columnObject < length row).
Proof.
  revert measure. induction fields as [|[k co] fields IH]; intros measure.
  - simpl. split; [|eauto]. intros _ key co Hin. now apply elem_of_nil in Hin.
  - cbn [foldM]. split.
    + intros [measure' H] key co' Hin.
      destruct (row !! columnIndex co) as [raw|] eqn:Hcell.
      * destruct (setField_present row measure k co raw Hcell) as [m1 H1].
        rewrite H1 in H. cbn [bind] in H.
        apply elem_of_cons in Hin as [Heq|Hin].
        -- inversion Heq; subst. now apply lookup_lt_Some in Hcell.
        -- apply (proj1 (IH m1) (ex_intro _ measure' H) key co' Hin).
      * destruct (setField_absent row measure k co Hcell) as [e He].
        rewrite He in H. discriminate.
    + intros Hall.
      destruct (lookup_lt_is_Some_2 row (columnIndex co)) as [raw Hcell];
        [apply (Hall k); now left|].
      destruct (setField_present row measure k co raw Hcell) as [m1 ->].
      cbn [bind]. apply IH. intros key co' Hin. apply (Hall key). now right.
Qed.

Lemma getCheckedColumns_complete_iff row literal :
  (exists labels, getCheckedColumns years row literal = Normal labels)
  <-> (forall key, key ∈ literal.*1 -> key < length row).
Proof.
  unfold getCheckedColumns. split.
  - intros [labels H] key Hkey. apply lookup_lt_is_Some.
    apply (checkColumns_completed years _ _ _ _ H).
    now apply ownEntries_keys.
  - intros Hall. eexists. apply checkColumns_present.
    intros key Hkey. apply lookup_lt_is_Some, Hall. now apply ownEntries_keys.
Qed.

(** The record that [buildMeasure] returns, in its parts. *)
Lemma buildMeasure_Normal fields constants row measure :
  buildMeasure years fields constants row = Normal measure ->
  exists sourced submissionMethods measureSets,
    foldM (setSourcedField years row) ∅ fields = Normal sourced
    /\ getCheckedColumns years row SUBMISSION_METHODS
       = Normal submissionMethods
    /\ getCheckedColumns years row MEASURE_SETS = Normal measureSets
    /\ measure
       = <["measureSets" := VArr (VStr <$> measureSets)]>
           (<["submissionMethods" := VArr (VStr <$> submissionMethods)]>
              (fold_left (fun m kv => <[kv.1 := kv.2]> m) constants sourced)).
Proof.
  unfold buildMeasure.
  destruct (foldM _ ∅ fields) as [sourced|]; cbn [bind]; [|discriminate].
  destruct (getCheckedColumns years row SUBMISSION_METHODS) as [sm|];
    cbn [bind]; [|discriminate].
  destruct (getCheckedColumns years row MEASURE_SETS) as [ms|];
    cbn [bind]; [|discriminate].
  intros H. inversion H. eauto 10.
Qed.

Lemma flag_columns_bound (row : list string) :
  (forall key, key ∈ SUBMISSION_METHODS.*1 -> key < length row)
  /\ (forall key, key ∈ MEASURE_SETS.*1 -> key < length row)
  <-> 46 <= length row.
Proof.
  split.
  - intros [_ H]. apply (H 45). compute_done.
  - intros Hlen.
    assert (Hsm : Forall (fun key => key < 46) SUBMISSION_METHODS.*1)
      by compute_done.
    assert (Hms : Forall (fun key => key < 46) MEASURE_SETS.*1)
      by compute_done.
    rewrite Forall_forall in Hsm, Hms.
    split; intros key Hkey; [apply Hsm in Hkey | apply Hms in Hkey]; lia.
Qed.

(** X6. An entry with an index and a default, with or without a table,
    whose cell is in the row never throws and always sets its field; the
    value it sets counts as true or is the default of the entry, so the
    field is never another value that counts as false. *)
Theorem setSourcedField_default (row : list string) (measure : Measure)
    (key : string) (index : nat) (mappings : option (gmap string string))
    (dflt : JsValue) (raw : string) :
  row !! index = Some raw ->
  exists value,
    setSourcedField years row measure (key, ColumnSpec index mappings dflt)
    = Normal (<[key := value]> measure)
    /\ (ToBoolean value = true \/ value = dflt).
Proof.
  intros Hcell. simpl. rewrite Hcell.
  assert (Hor : forall v, ToBoolean (or v dflt) = true \/ or v dflt = dflt).
  { intros v. unfold or. destruct (ToBoolean v) eqn:E; auto. }
  destruct mappings as [table|]; simpl.
  - eauto.
  - destruct (mapInput_total years raw) as [v ->]. simpl. eauto.
Qed.

(** X7. The record of a row is built exactly when the row has a cell at
    every column that the mapping names and at every column of the two
    tables of flags, that is 46 cells at least; with the mapping of
    [CONFIG], exactly when the row has 61 cells at least. A shorter row
    throws, a longer one never does. *)
Theorem buildMeasure_completes (row : list string) :
  (forall fields constants,
      (exists measure,
          buildMeasure years fields constants row = Normal measure)
      <-> (forall key columnObject,
              (key, columnObject) ∈ fields ->
              columnIndex columnObject < length row)
          /\ 46 <= length row)
  /\ ((exists measure,
          buildMeasure years (sourced_fields CONFIG) (constant_fields CONFIG)
            row = Normal measure)
      <-> 61 <= length row).
Proof.
  assert (Hgen : forall fields constants,
    (exists measure, buildMeasure years fields constants row = Normal measure)
    <-> (forall key columnObject,
            (key, columnObject) ∈ fields ->
            columnIndex columnObject < length row)
        /\ 46 <= length row).
  { intros fields constants. rewrite <- flag_columns_bound.
    rewrite <- (sourcedFields_complete_iff row fields ∅).
    rewrite <- !getCheckedColumns_complete_iff. split.
    - intros [measure H].
      apply buildMeasure_Normal in H as (s & sm & ms & Hs & Hsm & Hms & _).
      split; [eauto | split; eauto].
    - intros ([s Hs] & [sm Hsm] & [ms Hms]). unfold buildMeasure.
      rewrite Hs, Hsm, Hms. cbn [bind]. eauto. }
  split; [exact Hgen|].
  rewrite Hgen. split.
  - intros [H _]. apply (H "overallAlgorithm" (Column 60)).
    do 14 apply list_elem_of_further. apply list_elem_of_here.
  - intros Hlen. split; [|lia].
    assert (Hall : Forall (fun entry => columnIndex entry.2 < 61)
                     (sourced_fields CONFIG)).
    { repeat constructor. }
    rewrite Forall_forall in Hall. intros key co Hin.
    apply Hall in Hin. simpl in Hin. lia.
Qed.

Lemma sourcedFields_other row fields key :
  key ∉ fields.*1 ->
  forall measure measure',
    foldM (setSourcedField years row) measure fields = Normal measure' ->
    measure' !! key = measure !! key.
Proof.
  induction fields as [|[k co] fields IH]; intros Hkey measure measure' H.
  - now inversion H.
  - cbn [foldM] in H. simpl in Hkey.
    apply not_elem_of_cons in Hkey as [Hne Hkey].
    destruct (setSourcedField years row measure (k, co)) as [m1|] eqn:E;
      cbn [bind] in H; [|discriminate].
    rewrite (IH Hkey _ _ H).
    apply (setField_other years row measure (k, co) m1 key E). simpl.
    congruence.
Qed.

(** With field names that are all different, the field of an entry is
    what the entry has set, starting from a measure without the field. *)
Lemma sourcedFields_lookup row fields key columnObject sourced :
  NoDup fields.*1 -> (key, columnObject) ∈ fields ->
  foldM (setSourcedField years row) ∅ fields = Normal sourced ->
  exists before after : Measure,
    before !! key = None
    /\ setSourcedField years row before (key, columnObject) = Normal after
    /\ sourced !! key = after !! key.
Proof.
  intros Hnd Hin H.
  apply list_elem_of_split in Hin as (l1 & l2 & ->).
  rewrite fmap_app in Hnd. simpl in Hnd.
  apply NoDup_app in Hnd as (_ & Hdisj & Hnd2).
  apply NoDup_cons in Hnd2 as [Hkey2 _].
  assert (Hkey1 : key ∉ l1.*1).
  { intros Hin1. apply (Hdisj key Hin1). now left. }
  rewrite foldM_app in H.
  destruct (foldM _ ∅ l1) as [before|] eqn:E1; cbn [bind foldM] in H;
    [|discriminate].
  destruct (setSourcedField years row before (key, columnObject))
    as [after|] eqn:E; cbn [bind] in H; [|discriminate].
  exists before, after. split; [|split; [exact E|]].
  - rewrite (sourcedFields_other row l1 key Hkey1 _ _ E1). apply lookup_empty.
  - apply (sourcedFields_other row l2 key Hkey2 _ _ H).
Qed.

Lemma sourcedFields_is_Some row fields key :
  forall measure measure',
    foldM (setSourcedField years row) measure fields = Normal measure' ->
    is_Some (measure' !! key)
    <-> is_Some (measure !! key)
        \/ exists columnObject,
             (key, columnObject) ∈ fields
             /\ setsField row columnObject = true.
Proof.
  induction fields as [|[k co] fields IH]; intros measure measure' H.
  - inversion H. split; [auto|].
    intros [Hm | (co & Hin & _)]; [exact Hm | now apply elem_of_nil in Hin].
  - cbn [foldM] in H.
    destruct (setSourcedField years row measure (k, co)) as [m1|] eqn:E;
      cbn [bind] in H; [|discriminate].
    rewrite (IH _ _ H).
    apply setField_Normal in E as [[Hsets [v ->]] | [Hsets ->]].
    + destruct (decide (k = key)) as [->|Hne].
      * rewrite lookup_insert_eq. split; [|intros _; left; eauto].
        intros _. right. exists co. split; [left | exact Hsets].
      * rewrite lookup_insert_ne by exact Hne. split.
        -- intros [Hm | (co' & Hin & Hs)]; [now left|].
           right. exists co'. split; [now right | exact Hs].
        -- intros [Hm | (co' & Hin & Hs)]; [now left|].
           apply elem_of_cons in Hin as [Heq|Hin]; [congruence|].
           right. eauto.
    + split.
      * intros [Hm | (co' & Hin & Hs)]; [now left|].
        right. exists co'. split; [now right | exact Hs].
      * intros [Hm | (co' & Hin & Hs)]; [now left|].
        apply elem_of_cons in Hin as [Heq|Hin]; [|right; eauto].
        inversion Heq; subst. congruence.
Qed.

Lemma constantFields_lookup (constants : list (string * JsValue)) key value :
  NoDup constants.*1 -> (key, value) ∈ constants ->
  forall measure : Measure,
    fold_left (fun m kv => <[kv.1 := kv.2]> m) constants measure !! key
    = Some value.
Proof.
  induction constants as [|[k v] constants IH]; intros Hnd Hin measure.
  - now apply elem_of_nil in Hin.
  - simpl in Hnd. apply NoDup_cons in Hnd as [Hk Hnd]. simpl.
    apply elem_of_cons in Hin as [Heq|Hin].
    + inversion Heq; subst k v.
      rewrite constantFields_other by exact Hk. apply lookup_insert_eq.
    + now apply IH.
Qed.

Lemma constantFields_is_Some (constants : list (string * JsValue)) key :
  forall measure : Measure,
    is_Some (fold_left (fun m kv => <[kv.1 := kv.2]> m) constants measure
             !! key)
    <-> is_Some (measure !! key) \/ key ∈ constants.*1.
Proof.
  induction constants as [|[k v] constants IH]; intros measure; simpl.
  - rewrite elem_of_nil. tauto.
  - rewrite IH, elem_of_cons. destruct (decide (k = key)) as [->|Hne].
    + rewrite lookup_insert_eq. split; [auto|]. intros _. left. eauto.
    + rewrite lookup_insert_ne by exact Hne. split; [tauto|].
      intros [Hm | [Heq | Hin]]; [tauto | congruence | tauto].
Qed.

(** The field of a direct entry in the record of a row. *)
Lemma buildMeasure_direct_lookup row fields constants measure key index raw :
  (key, Column index) ∈ fields ->
  NoDup fields.*1 ->
  key ∉ constants.*1 ->
  key <> "submissionMethods" -> key <> "measureSets" ->
  row !! index = Some raw ->
  buildMeasure years fields constants row = Normal measure ->
  (raw = "" /\ measure !! key = None)
  \/ (raw <> ""
      /\ exists value,
           mapInput years (Some raw) = Normal value
           /\ measure !! key = Some value).
Proof.
  intros Hin Hnd Hconst Hsm Hms Hcell H.
  apply buildMeasure_Normal in H as (s & sm & ms & Hs & _ & _ & ->).
  rewrite !lookup_insert_ne by congruence.
  rewrite constantFields_other by exact Hconst.
  destruct (sourcedFields_lookup row fields key (Column index) s Hnd Hin Hs)
    as (before & after & Hnone & Hset & ->).
  simpl in Hset. rewrite Hcell in Hset.
  destruct raw as [|c raw].
  - left. inversion Hset; subst after. split; [reflexivity | exact Hnone].
  - right. split; [discriminate|].
    destruct (mapInput years (Some (String c raw))) as [v|];
      cbn [bind] in Hset; [|discriminate].
    inversion Hset. exists v. split; [reflexivity | apply lookup_insert_eq].
Qed.

(** X8. A direct entry of the mapping whose cell is in the row and is not
    the empty string gives the record of the row the normalized cell as
    its field, the field names of the mapping being different from each
    other, from those of the constant fields and from those of the two
    list fields. *)
Theorem buildMeasure_direct_field (row : list string)
    (fields : list (string * ColumnObject))
    (constants : list (string * JsValue)) (measure : Measure)
    (key : string) (index : nat) (raw : string) :
  (key, Column index) ∈ fields ->
  NoDup fields.*1 ->
  key ∉ constants.*1 ->
  key <> "submissionMethods" -> key <> "measureSets" ->
  row !! index = Some raw -> raw <> "" ->
  buildMeasure years fields constants row = Normal measure ->
  exists value,
    mapInput years (Some raw) = Normal value /\ measure !! key = Some value.
Proof.
  intros Hin Hnd Hconst Hsm Hms Hcell Hraw H.
  destruct (buildMeasure_direct_lookup row fields constants measure key index
              raw Hin Hnd Hconst Hsm Hms Hcell H) as [[Hempty _] | [_ Hv]];
    [contradiction | exact Hv].
Qed.

(** X9. The constant fields come after the fields of the mapping: the
    record of a row holds every constant field with its constant value,
    also when the mapping has a field of the same name, the names of the
    constant fields being different from each other and from those of the
    two list fields. *)
Theorem buildMeasure_constant_field (row : list string)
    (fields : list (string * ColumnObject))
    (constants : list (string * JsValue)) (measure : Measure)
    (key : string) (value : JsValue) :
  NoDup constants.*1 ->
  (key, value) ∈ constants ->
  key <> "submissionMethods" -> key <> "measureSets" ->
  buildMeasure years fields constants row = Normal measure ->
  measure !! key = Some value.
Proof.
  intros Hnd Hin Hsm Hms H.
  apply buildMeasure_Normal in H as (s & sm & ms & _ & _ & _ & ->).
  rewrite lookup_insert_ne by congruence.
  rewrite lookup_insert_ne by congruence.
  now apply constantFields_lookup.
Qed.

(** X10. Whatever the mapping and the constant fields, the record of a
    row holds under [submissionMethods] and under [measureSets] the arrays
    of the labels of the two tables whose cells normalize to true, in the
    order of the tables. *)
Theorem buildMeasure_flag_fields (row : list string)
    (fields : list (string * ColumnObject))
    (constants : list (string * JsValue)) (measure : Measure) :
  buildMeasure years fields constants row = Normal measure ->
  measure !! "submissionMethods"
  = Some (VArr (VStr <$> (List.filter
                            (fun entry => isChecked years row entry.1)
                            SUBMISSION_METHODS).*2))
  /\ measure !! "measureSets"
     = Some (VArr (VStr <$> (List.filter
                               (fun entry => isChecked years row entry.1)
                               MEASURE_SETS).*2)).
Proof.
  intros H.
  apply buildMeasure_Normal in H as (s & sm & ms & _ & Hsm & Hms & ->).
  assert (Hlabels : forall literal labels,
    ownEntries literal = literal ->
    getCheckedColumns years row literal = Normal labels ->
    labels = (List.filter (fun entry => isChecked years row entry.1)
                literal).*2).
  { intros literal labels Hown Hget. unfold getCheckedColumns in Hget.
    assert (Hcells := checkColumns_completed years _ _ _ _ Hget).
    rewrite checkColumns_present in Hget by exact Hcells.
    inversion Hget. now rewrite Hown. }
  rewrite (Hlabels SUBMISSION_METHODS sm eq_refl Hsm).
  rewrite (Hlabels MEASURE_SETS ms eq_refl Hms).
  split.
  - rewrite lookup_insert_ne by discriminate. apply lookup_insert_eq.
  - apply lookup_insert_eq.
Qed.

(** X11. The fields of the record of a row are [submissionMethods],
    [measureSets], the constant fields, and the fields of the entries of
    the mapping that set their field: every entry with a default or a
    table, and every direct entry whose cell is not the empty string.
    The record has no other field. *)
Theorem buildMeasure_keys (row : list string)
    (fields : list (string * ColumnObject))
    (constants : list (string * JsValue)) (measure : Measure) :
  buildMeasure years fields constants row = Normal measure ->
  forall key,
    is_Some (measure !! key)
    <-> key = "measureSets" \/ key = "submissionMethods"
        \/ key ∈ constants.*1
        \/ exists columnObject,
             (key, columnObject) ∈ fields
             /\ setsField row columnObject = true.
Proof.
  intros H key.
  apply buildMeasure_Normal in H as (s & sm & ms & Hs & _ & _ & ->).
  destruct (decide (key = "measureSets")) as [->|Hms].
  { rewrite lookup_insert_eq. split; [auto | eauto]. }
  rewrite lookup_insert_ne by congruence.
  destruct (decide (key = "submissionMethods")) as [->|Hsm].
  { rewrite lookup_insert_eq. split; [auto | eauto]. }
  rewrite lookup_insert_ne by congruence.
  rewrite constantFields_is_Some, (sourcedFields_is_Some row fields key _ _ Hs).
  rewrite lookup_empty. split.
  - intros [[Hnone | Hsets] | Hconst]; [|auto..].
    now destruct Hnone.
  - intros [? | [? | [Hconst | Hsets]]]; [contradiction..| |]; auto.
Qed.

End Records.

(** ** The merger over all rows of the strata file *)

Section Strata.

Import JsString.

Variables qualityPath strataPath : string.

Lemma findIndex_measureIds measureId (measures measures' : list Measure) :
  measureIds measures = measureIds measures' ->
  findIndex measureId measures = findIndex measureId measures'.
Proof.
  revert measures'. induction measures as [|m measures IH];
    intros [|m' measures'] H; try discriminate; [reflexivity|].
  unfold measureIds, fieldValues in H. simpl in H. inversion H as [[Hm Hrest]].
  simpl. unfold hasMeasureId. rewrite Hm.
  now rewrite (IH measures' Hrest).
Qed.

Lemma findIndex_is_Some measureId (measures : list Measure) i :
  findIndex measureId measures = Some i -> is_Some (measures !! i).
Proof.
  revert i. induction measures as [|m measures IH]; intros i; simpl;
    [discriminate|].
  destruct (hasMeasureId measureId m).
  - intros H. inversion H. simpl. eauto.
  - destruct (findIndex measureId measures) as [j|]; simpl; [|discriminate].
    intros H. inversion H. simpl. now apply IH.
Qed.

Lemma pushStratum_strataOf measure stratumName description measure' :
  pushStratum measure stratumName description = Normal measure' ->
  strataOf measure' = strataOf measure ++ [stratum stratumName description].
Proof.
  unfold pushStratum, strataOf, stratum.
  destruct (measure !! "strata") as [v|] eqn:Hv;
    cbn [default from_option id].
  - destruct (JsValues.ToBoolean v) eqn:Hb.
    + rewrite Hv. destruct v; try discriminate.
      intros H. inversion H. now rewrite lookup_insert_eq.
    + rewrite lookup_insert_eq. intros H. inversion H.
      rewrite lookup_insert_eq. destruct v; try reflexivity.
      discriminate.
  - cbn [JsValues.ToBoolean]. rewrite lookup_insert_eq.
    intros H. inversion H. now rewrite lookup_insert_eq.
Qed.

(** What a row of the strata file does to the strata of each measure. *)
Lemma addStratum_strataOf measures row measures' :
  addStratum qualityPath strataPath measures row = Normal measures' ->
  forall i measure,
    measures !! i = Some measure ->
    exists measure',
      measures' !! i = Some measure'
      /\ strataOf measure'
         = strataOf measure ++ stratumFor measures i row.
Proof.
  unfold addStratum, stratumFor.
  destruct (row !! 0) as [[|c key]|] eqn:H0.
  - intros H i measure Hi. inversion H; subst.
    exists measure. split; [exact Hi|].
    destruct (row !! 1), (row !! 3); now rewrite ?app_nil_r.
  - cbn [call_trim bind].
    destruct (row !! 1) as [stratumName|]; cbn [call_trim bind];
      [|discriminate].
    destruct (row !! 3) as [description|]; cbn [call_trim bind];
      [|discriminate].
    destruct (findIndex (trim (String c key)) measures) as [j|] eqn:Hj;
      [|discriminate].
    destruct (findIndex_is_Some _ _ _ Hj) as [found Hfound].
    rewrite Hfound.
    destruct (pushStratum found (trim stratumName) (trim description))
      as [found'|] eqn:Hpush; cbn [bind]; [|discriminate].
    intros H i measure Hi. inversion H; subst measures'.
    cbn [String.eqb negb andb].
    replace (String.eqb (String c key) "") with false by reflexivity.
    cbn [negb andb].
    destruct (decide (j = i)) as [->|Hne].
    + rewrite bool_decide_eq_true_2 by reflexivity.
      exists found'. split.
      * apply list_lookup_insert_eq. now apply lookup_lt_Some in Hi.
      * rewrite Hi in Hfound. inversion Hfound.
        now apply pushStratum_strataOf.
    + rewrite bool_decide_eq_false_2 by congruence.
      exists measure. split.
      * now rewrite list_lookup_insert_ne.
      * now rewrite app_nil_r.
  - intros H i measure Hi. inversion H; subst.
    exists measure. split; [exact Hi | now rewrite app_nil_r].
Qed.

Lemma stratumFor_measureIds (measures measures' : list Measure) i row :
  measureIds measures = measureIds measures' ->
  stratumFor measures i row = stratumFor measures' i row.
Proof.
  intros H. unfold stratumFor.
  destruct (row !! 0) as [key|]; [|reflexivity].
  now rewrite (findIndex_measureIds (trim key) _ _ H).
Qed.

Lemma addAll_strataOf strataRows :
  forall measures measures',
    addMultiPerformanceRateStrata qualityPath strataPath measures strataRows
    = Normal measures' ->
    forall i measure,
      measures !! i = Some measure ->
      exists measure',
        measures' !! i = Some measure'
        /\ strataOf measure'
           = strataOf measure ++ flat_map (stratumFor measures i) strataRows.
Proof.
  unfold addMultiPerformanceRateStrata.
  induction strataRows as [|row strataRows IH];
    intros measures measures' H i measure Hi; cbn [foldM] in H.
  - inversion H; subst. exists measure. simpl. now rewrite app_nil_r.
  - destruct (addStratum qualityPath strataPath measures row) as [m1|] eqn:E;
      cbn [bind] in H; [|discriminate].
    destruct (addStratum_strataOf _ _ _ E i measure Hi)
      as (measure1 & Hi1 & Hs1).
    destruct (IH m1 measures' H i measure1 Hi1) as (measure' & Hi' & Hs').
    exists measure'. split; [exact Hi'|].
    rewrite Hs', Hs1, <- app_assoc. simpl. f_equal. f_equal.
    apply flat_map_ext. intros row'.
    apply stratumFor_measureIds.
    now apply (addStratum_fieldValues qualityPath strataPath "measureId"
                 measures row).
Qed.

(** X12. The merger moves, adds and removes no measure, and changes no
    field of a measure but [strata]: the measures it returns are as many
    as before and hold, one by one, the same values under every other
    field name. *)
Theorem addMultiPerformanceRateStrata_preserves
    (measures measures' : list Measure) (strataRows : list (list string)) :
  addMultiPerformanceRateStrata qualityPath strataPath measures strataRows
  = Normal measures' ->
  length measures' = length measures
  /\ (forall key, key <> "strata" ->
        fieldValues key measures' = fieldValues key measures).
Proof.
  intros H. split.
  - apply (addAll_fieldValues qualityPath strataPath "measureId") in H;
      [|discriminate].
    apply (f_equal length) in H. unfold fieldValues in H.
    now rewrite !length_fmap in H.
  - intros key Hkey.
    now apply (addAll_fieldValues qualityPath strataPath key strataRows).
Qed.

(** X13. When the merger returns, the strata of each measure are those
    it had, followed by the strata of the rows whose key, trimmed, is
    first found at this measure, in the order of the rows: each with the
    trimmed name and the trimmed description of its row. *)
Theorem addMultiPerformanceRateStrata_strata
    (measures measures' : list Measure) (strataRows : list (list string)) :
  addMultiPerformanceRateStrata qualityPath strataPath measures strataRows
  = Normal measures' ->
  forall i measure,
    measures !! i = Some measure ->
    exists measure',
      measures' !! i = Some measure'
      /\ strataOf measure'
         = strataOf measure ++ flat_map (stratumFor measures i) strataRows.
Proof. apply addAll_strataOf. Qed.

(** X14. Rows without a key, with no cell 0 or with the empty string in
    it, change nothing: a strata file of such rows only, or of no row,
    gives back the measures as they are, whatever they are. *)
Theorem addMultiPerformanceRateStrata_blank_rows
    (measures : list Measure) (strataRows : list (list string)) :
  Forall (fun row : list string => row !! 0 = None \/ row !! 0 = Some "")
    strataRows ->
  addMultiPerformanceRateStrata qualityPath strataPath measures strataRows
  = Normal measures.
Proof.
  unfold addMultiPerformanceRateStrata.
  induction 1 as [|row strataRows Hrow _ IH]; cbn [foldM]; [reflexivity|].
  now rewrite (addStratum_blank qualityPath strataPath measures row Hrow).
Qed.

End Strata.

(** ** The conversion *)

Section Conversion.

Variable years : list JsNumber.JsNum.
Variables qualityPath strataPath : string.

(** The collection that the conversion returns, record by record. *)
Lemma convertWith_Normal config rows strataRows measures :
  convertWith years qualityPath strataPath config rows strataRows
  = Normal measures ->
  exists built,
    mapM (buildMeasure years (sourced_fields config) (constant_fields config))
      rows = Normal built
    /\ length measures = length rows
    /\ forall i row,
         rows !! i = Some row ->
         exists record measure,
           buildMeasure years (sourced_fields config)
             (constant_fields config) row = Normal record
           /\ built !! i = Some record
           /\ measures !! i = Some measure
           /\ (forall key, key <> "strata" ->
                 measure !! key = record !! key)
           /\ strataOf measure
              = strataOf record
                ++ flat_map (stratumFor built i) strataRows.
Proof.
  unfold convertWith.
  destruct (mapM _ rows) as [built|] eqn:Hmap; cbn [bind]; [|discriminate].
  intros H. exists built. split; [reflexivity|]. split.
  - rewrite <- (mapM_length _ _ _ Hmap).
    apply (addAll_fieldValues qualityPath strataPath "measureId") in H;
      [|discriminate].
    apply (f_equal length) in H. unfold fieldValues in H.
    now rewrite !length_fmap in H.
  - intros i row Hrow.
    destruct (mapM_lookup _ _ _ _ _ Hmap Hrow) as (record & Hrecord & Hi).
    destruct (addAll_strataOf qualityPath strataPath _ _ _ H i record Hi)
      as (measure & Hm & Hstrata).
    exists record, measure. repeat split; try assumption.
    intros key Hkey.
    apply (addAll_fieldValues qualityPath strataPath key) in H; [|exact Hkey].
    apply (f_equal (fun values => values !! i)) in H.
    unfold fieldValues in H. rewrite !list_lookup_fmap, Hm, Hi in H.
    simpl in H. congruence.
Qed.

(** X15. When the conversion returns, it returns one record for each row
    of the quality file, in the order of the rows: the record at the
    position of a row is the record built from that row in every field
    but [strata], and its strata are those that the rows of the strata
    file give to this position. *)
Theorem convertWith_records (config : Config)
    (rows strataRows : list (list string)) (measures : list Measure) :
  convertWith years qualityPath strataPath config rows strataRows
  = Normal measures ->
  exists built,
    mapM (buildMeasure years (sourced_fields config) (constant_fields config))
      rows = Normal built
    /\ length measures = length rows
    /\ forall i row,
         rows !! i = Some row ->
         exists record measure,
           buildMeasure years (sourced_fields config)
             (constant_fields config) row = Normal record
           /\ built !! i = Some record
           /\ measures !! i = Some measure
           /\ (forall key, key <> "strata" ->
                 measure !! key = record !! key)
           /\ strataOf measure
              = strataOf record
                ++ flat_map (stratumFor built i) strataRows.
Proof. apply convertWith_Normal. Qed.

(** X16. Every measure that the importer returns is of the category
    [quality], is no registry measure and is not risk adjusted, whatever
    the cells of its row; and its [submissionMethods] and [measureSets]
    are arrays of strings. *)
Theorem convertQualityStrataCsvsToMeasures_constants
    (rows strataRows : list (list string)) (measures : list Measure)
    (measure : Measure) :
  convertQualityStrataCsvsToMeasures years qualityPath strataPath rows
    strataRows = Normal measures ->
  measure ∈ measures ->
  measure !! "category" = Some (VStr "quality")
  /\ measure !! "isRegistryMeasure" = Some (VBool false)
  /\ measure !! "isRiskAdjusted" = Some (VBool false)
  /\ (exists labels,
        measure !! "submissionMethods" = Some (VArr (VStr <$> labels)))
  /\ (exists labels,
        measure !! "measureSets" = Some (VArr (VStr <$> labels))).
Proof.
  unfold convertQualityStrataCsvsToMeasures. intros H Hin.
  apply convertWith_Normal in H as (built & _ & Hlen & Hrows).
  apply list_elem_of_lookup in Hin as [i Hi].
  destruct (lookup_lt_is_Some_2 rows i) as [row Hrow].
  { rewrite <- Hlen. now apply lookup_lt_Some in Hi. }
  destruct (Hrows i row Hrow) as (record & m & Hrecord & _ & Hm & Hkeys & _).
  rewrite Hi in Hm. inversion Hm; subst m.
  rewrite !Hkeys by discriminate.
  apply buildMeasure_Normal in Hrecord as (s & sm & ms & _ & _ & _ & ->).
  assert (Hconst : forall key value,
    (key, value) ∈ constant_fields CONFIG ->
    key <> "submissionMethods" -> key <> "measureSets" ->
    (<["measureSets" := VArr (VStr <$> ms)]>
       (<["submissionMethods" := VArr (VStr <$> sm)]>
          (fold_left (fun m kv => <[kv.1 := kv.2]> m)
             (constant_fields CONFIG) s)) : Measure) !! key = Some value).
  { intros key value Hconst Hsm Hms.
    rewrite lookup_insert_ne by congruence.
    rewrite lookup_insert_ne by congruence.
    apply constantFields_lookup; [compute_done | exact Hconst]. }
  split; [apply Hconst; [left | discriminate..]|].
  split; [apply Hconst; [right; left | discriminate..]|].
  split; [apply Hconst; [do 2 right; left | discriminate..]|].
  split.
  - exists sm. rewrite lookup_insert_ne by discriminate.
    apply lookup_insert_eq.
  - exists ms. apply lookup_insert_eq.
Qed.

(** X17. The conversion stops at the first failure. When the rows of the
    quality file before a row build their records and this row throws,
    the conversion throws the error of this row, whatever the rows after
    it and the strata file hold. When all rows of the quality file build
    their records, and the rows of the strata file before a row are
    merged and this row throws, the conversion throws the error of this
    row. *)
Theorem convertWith_first_error (config : Config) (e : exn) :
  (forall rows row rows' strataRows built,
      mapM (buildMeasure years (sourced_fields config)
              (constant_fields config)) rows = Normal built ->
      buildMeasure years (sourced_fields config) (constant_fields config) row
      = Throw e ->
      convertWith years qualityPath strataPath config (rows ++ row :: rows')
        strataRows = Throw e)
  /\ (forall rows strataRows strataRow strataRows' built merged,
        mapM (buildMeasure years (sourced_fields config)
                (constant_fields config)) rows = Normal built ->
        addMultiPerformanceRateStrata qualityPath strataPath built strataRows
        = Normal merged ->
        addStratum qualityPath strataPath merged strataRow = Throw e ->
        convertWith years qualityPath strataPath config rows
          (strataRows ++ strataRow :: strataRows') = Throw e).
Proof.
  split.
  - intros rows row rows' strataRows built Hbuilt Hrow.
    unfold convertWith. rewrite mapM_app, Hbuilt. cbn [bind mapM].
    now rewrite Hrow.
  - intros rows strataRows strataRow strataRows' built merged
      Hbuilt Hmerged Hrow.
    unfold convertWith. rewrite Hbuilt. cbn [bind].
    unfold addMultiPerformanceRateStrata in *.
    rewrite foldM_app, Hmerged. cbn [bind foldM]. now rewrite Hrow.
Qed.

Lemma mapM_elem_of {A B : Type} (f : A -> completion B) l bs b :
  mapM f l = Normal bs -> b ∈ bs -> exists a, a ∈ l /\ f a = Normal b.
Proof.
  revert bs. induction l as [|a l IH]; intros bs H Hb; simpl in H.
  - inversion H; subst. now apply elem_of_nil in Hb.
  - destruct (f a) as [b'|] eqn:E; simpl in H; [|discriminate].
    destruct (mapM f l) as [bs'|]; simpl in H; [|discriminate].
    inversion H; subst bs. apply elem_of_cons in Hb as [->|Hb].
    + exists a. split; [left | exact E].
    + destruct (IH bs' eq_refl Hb) as (a' & Ha' & Hf).
      exists a'. split; [now right | exact Hf].
Qed.

(** A cell that normalizes to the string of a key has the cleaned form of
    the key, and the key then normalizes to a string as well. *)
Lemma mapInput_string_key raw key :
  mapInput years (Some raw) = Normal (VStr (JsString.trim key)) ->
  mapInput years (Some key) = Normal (VStr (JsString.trim key)).
Proof.
  intros H. rewrite mapInput_cleaned in H. cbv zeta in H.
  repeat match type of H with
         | context [if ?b then _ else _] =>
             destruct b eqn:?; try discriminate H
         end.
  inversion H as [Htrim]. rewrite Htrim in *.
  rewrite mapInput_cleaned. cbv zeta.
  repeat match goal with
         | E : _ = false |- _ => rewrite E; clear E
         end.
  reflexivity.
Qed.

(** X20. A key of the strata file that the normalizer does not read as a
    string (it reads it as true, false, null or a valid year) is the
    [measureId] of no measure built from the quality file, where
    [measureId] is a direct field: the identifier of such a measure was
    normalized too, and is no string. A row of the strata file with such
    a key always throws: the error of the unknown measure when it has its
    name (cell 1) and its description (cell 3), the TypeError of the
    engine for [trim] called on [undefined] when it lacks one of them. *)
Theorem addStratum_normalized_key (config : Config) (index : nat)
    (rows : list (list string)) (built : list Measure)
    (row : list string) (key : string) :
  ("measureId", Column index) ∈ sourced_fields config ->
  NoDup (sourced_fields config).*1 ->
  "measureId" ∉ (constant_fields config).*1 ->
  mapM (buildMeasure years (sourced_fields config) (constant_fields config))
    rows = Normal built ->
  row !! 0 = Some key -> key <> "" ->
  (forall s, mapInput years (Some key) <> Normal (VStr s)) ->
  (forall measure, measure ∈ built ->
     measure !! "measureId" <> Some (VStr (JsString.trim key)))
  /\ (is_Some (row !! 1) -> is_Some (row !! 3) ->
      addStratum qualityPath strataPath built row
      = Throw (TypeError ("Measure id: " +:+ JsString.trim key +:+
                          " does not exist in " +:+ qualityPath +:+
                          " but does exist in " +:+ strataPath)))
  /\ (row !! 1 = None \/ row !! 3 = None ->
      addStratum qualityPath strataPath built row
      = Throw (NativeTypeError "trim")).
Proof.
  intros Hin Hnd Hconst Hbuilt H0 Hkey Hnot.
  assert (Hnone : forall measure, measure ∈ built ->
    measure !! "measureId" <> Some (VStr (JsString.trim key))).
  { intros measure Hm Hid.
    destruct (mapM_elem_of _ _ _ _ Hbuilt Hm) as (qualityRow & _ & Hrecord).
    destruct (qualityRow !! index) as [raw|] eqn:Hcell.
    - destruct (buildMeasure_direct_lookup years qualityRow _ _ measure
                  "measureId" index raw Hin Hnd Hconst) as
        [[_ Hnone] | [_ (value & Hvalue & Hfield)]];
        try discriminate; try assumption.
      + congruence.
      + rewrite Hfield in Hid. inversion Hid; subst value.
        apply (Hnot (JsString.trim key)).
        now apply (mapInput_string_key raw).
    - assert (Hlt : index < length qualityRow).
      { apply buildMeasure_Normal in Hrecord as (s & _ & _ & Hs & _).
        apply (proj1 (sourcedFields_complete_iff years qualityRow _ ∅)
                 (ex_intro _ s Hs) "measureId" (Column index) Hin). }
      apply lookup_lt_is_Some in Hlt. rewrite Hcell in Hlt.
      now destruct Hlt. }
  split; [exact Hnone | split].
  - intros [stratumName H1] [description H3].
    now apply (addStratum_unmatched qualityPath strataPath built row key
                 stratumName description).
  - now apply (addStratum_short qualityPath strataPath built row key).
Qed.

End Conversion.

(** ** The further properties at sample inputs *)

(** A sample at which the importer completes, by computation. *)
Ltac completes E :=
  match type of E with
  | ?c = Throw _ =>
      let H := fresh in
      assert (H : match c with Normal _ => true | Throw _ => false end = true)
        by (vm_compute; reflexivity);
      rewrite E in H; discriminate H
  end.

Lemma setSourcedField_default_witness :
  (["FALSE"] : list string) !! 0 = Some "FALSE"
  /\ exists value,
       setSourcedField Samples.years ["FALSE"] ∅
         ("lastPerformanceYear", ColumnSpec 0 None VNull)
       = Normal (<["lastPerformanceYear" := value]> ∅)
       /\ (JsValues.ToBoolean value = true \/ value = VNull).
Proof.
  split; [reflexivity|].
  apply (setSourcedField_default Samples.years ["FALSE"] ∅
           "lastPerformanceYear" 0 None VNull "FALSE" eq_refl).
Defined.

Lemma buildMeasure_direct_field_witness :
  match buildMeasure Samples.years (sourced_fields Samples.config)
          (constant_fields Samples.config) Samples.row with
  | Normal measure => measure !! "title" = Some (VStr "Title")
  | Throw _ => False
  end.
Proof.
  destruct (buildMeasure _ _ _ _) as [measure|e] eqn:E; [|completes E].
  destruct (buildMeasure_direct_field Samples.years Samples.row
              (sourced_fields Samples.config)
              (constant_fields Samples.config) measure "title" 0 " Title ")
    as (value & Hvalue & Hfield); try discriminate; try exact E.
  - left.
  - compute_done.
  - compute_done.
  - reflexivity.
  - rewrite Hfield. vm_compute in Hvalue. now inversion Hvalue.
Defined.

Lemma buildMeasure_constant_field_witness :
  match buildMeasure Samples.years (sourced_fields Samples.config)
          (constant_fields Samples.config) Samples.row with
  | Normal measure => measure !! "category" = Some (VStr "quality")
  | Throw _ => False
  end.
Proof.
  destruct (buildMeasure _ _ _ _) as [measure|e] eqn:E; [|completes E].
  apply (buildMeasure_constant_field Samples.years Samples.row
           (sourced_fields Samples.config) (constant_fields Samples.config)
           measure "category" (VStr "quality"));
    try discriminate; try exact E.
  - compute_done.
  - left.
Defined.

Lemma buildMeasure_flag_fields_witness :
  match buildMeasure Samples.years (sourced_fields Samples.config)
          (constant_fields Samples.config) Samples.row with
  | Normal measure =>
      measure !! "submissionMethods" = Some (VArr [VStr "claims"])
      /\ measure !! "measureSets" = Some (VArr [])
  | Throw _ => False
  end.
Proof.
  destruct (buildMeasure _ _ _ _) as [measure|e] eqn:E; [|completes E].
  destruct (buildMeasure_flag_fields Samples.years Samples.row
              (sourced_fields Samples.config)
              (constant_fields Samples.config) measure E) as [-> ->].
  split; reflexivity.
Defined.

Lemma buildMeasure_keys_witness :
  match buildMeasure Samples.years (sourced_fields Samples.config)
          (constant_fields Samples.config) Samples.row with
  | Normal measure =>
      is_Some (measure !! "isInverse") /\ measure !! "strata" = None
  | Throw _ => False
  end.
Proof.
  destruct (buildMeasure _ _ _ _) as [measure|e] eqn:E; [|completes E].
  assert (Hkeys := buildMeasure_keys Samples.years Samples.row
                     (sourced_fields Samples.config)
                     (constant_fields Samples.config) measure E).
  split.
  - apply Hkeys. do 3 right. exists (ColumnSpec 2 None (VBool false)).
    split; [do 2 right; left | reflexivity].
  - apply eq_None_not_Some. intros Hsome. apply Hkeys in Hsome.
    destruct Hsome as [H | [H | [H | (co & H & _)]]]; try discriminate H.
    + apply list_elem_of_singleton in H. discriminate H.
    + repeat (apply elem_of_cons in H as [H|H]; [discriminate H|]).
      now apply elem_of_nil in H.
Defined.

Lemma addMultiPerformanceRateStrata_preserves_witness :
  length [ <["strata" := VArr [stratum "Stratum 1" "desc"]]>
             ({["measureId" := VStr "M1"]} : Measure) ]
  = length [ ({["measureId" := VStr "M1"]} : Measure) ]
  /\ fieldValues "measureId"
       [ <["strata" := VArr [stratum "Stratum 1" "desc"]]>
           ({["measureId" := VStr "M1"]} : Measure) ]
     = fieldValues "measureId" [ ({["measureId" := VStr "M1"]} : Measure) ].
Proof.
  assert (H : addMultiPerformanceRateStrata "quality.csv" "strata.csv"
                [ {["measureId" := VStr "M1"]} ]
                [ ["M1"; "Stratum 1"; "x"; "desc"] ]
              = Normal [ <["strata" := VArr [stratum "Stratum 1" "desc"]]>
                           {["measureId" := VStr "M1"]} ])
    by reflexivity.
  destruct (addMultiPerformanceRateStrata_preserves _ _ _ _ _ H)
    as [Hlen Hkeys].
  split; [exact Hlen | apply Hkeys; discriminate].
Defined.

Lemma addMultiPerformanceRateStrata_strata_witness :
  exists measure',
    [ <["strata" := VArr [stratum "Stratum 1" "desc"]]>
        ({["measureId" := VStr "M1"]} : Measure) ] !! 0 = Some measure'
    /\ strataOf measure' = [stratum "Stratum 1" "desc"].
Proof.
  assert (H : addMultiPerformanceRateStrata "quality.csv" "strata.csv"
                [ {["measureId" := VStr "M1"]} ]
                [ ["M1"; "Stratum 1"; "x"; "desc"] ]
              = Normal [ <["strata" := VArr [stratum "Stratum 1" "desc"]]>
                           {["measureId" := VStr "M1"]} ])
    by reflexivity.
  destruct (addMultiPerformanceRateStrata_strata _ _ _ _ _ H
              0 {["measureId" := VStr "M1"]} eq_refl)
    as (measure' & Hi & Hstrata).
  exists measure'. split; [exact Hi|]. rewrite Hstrata. reflexivity.
Defined.

Lemma addMultiPerformanceRateStrata_blank_rows_witness :
  addMultiPerformanceRateStrata "quality.csv" "strata.csv"
    [ {["measureId" := VStr "M1"]} ] [ []; [""; "name"; "x"; "desc"] ]
  = Normal [ {["measureId" := VStr "M1"]} ].
Proof.
  apply addMultiPerformanceRateStrata_blank_rows.
  constructor; [left; reflexivity|].
  constructor; [right; reflexivity | constructor].
Defined.

Lemma convertWith_records_witness :
  match convertWith Samples.years "quality.csv" "strata.csv" Samples.config
          [Samples.row; Samples.row] [] with
  | Normal measures => length measures = 2
  | Throw _ => False
  end.
Proof.
  destruct (convertWith _ _ _ _ _ _) as [measures|e] eqn:E; [|completes E].
  destruct (convertWith_records Samples.years "quality.csv" "strata.csv"
              Samples.config [Samples.row; Samples.row] [] measures E)
    as (built & _ & Hlen & _).
  exact Hlen.
Defined.

Lemma convertQualityStrataCsvsToMeasures_constants_witness :
  match convertQualityStrataCsvsToMeasures Samples.years "quality.csv"
          "strata.csv" [Samples.rowOf 61 "x" []] [] with
  | Normal measures =>
      Forall (fun measure : Measure =>
                measure !! "category" = Some (VStr "quality")) measures
  | Throw _ => False
  end.
Proof.
  destruct (convertQualityStrataCsvsToMeasures _ _ _ _ _)
    as [measures|e] eqn:E; [|completes E].
  apply Forall_forall. intros measure Hin.
  apply (convertQualityStrataCsvsToMeasures_constants Samples.years
           "quality.csv" "strata.csv" [Samples.rowOf 61 "x" []] []
           measures measure E Hin).
Defined.

Lemma convertWith_first_error_witness :
  convertWith Samples.years "quality.csv" "strata.csv" Samples.config
    ([Samples.row] ++ ["only"] :: [[]]) []
  = Throw (Error "Column 1 does not exist in source data").
Proof.
  destruct (buildMeasure Samples.years (sourced_fields Samples.config)
              (constant_fields Samples.config) Samples.row)
    as [measure|e] eqn:E; [|completes E].
  apply (proj1 (convertWith_first_error Samples.years "quality.csv"
                  "strata.csv" Samples.config
                  (Error "Column 1 does not exist in source data"))
           [Samples.row] ["only"] [[]] [] [measure]).
  - cbn [mapM]. rewrite E. reflexivity.
  - vm_compute. reflexivity.
Defined.

Lemma addStratum_normalized_key_witness :
  match mapM (buildMeasure Samples.years (sourced_fields CONFIG)
                (constant_fields CONFIG))
          [Samples.rowOf 61 "x" [(5, "true")]] with
  | Normal built =>
      addStratum "quality.csv" "strata.csv" built
        ["TRUE"; "Stratum 1"; "x"; "desc"]
      = Throw (TypeError
                 ("Measure id: TRUE does not exist in quality.csv" +:+
                  " but does exist in strata.csv"))
      /\ addStratum "quality.csv" "strata.csv" built ["TRUE"]
         = Throw (NativeTypeError "trim")
  | Throw _ => False
  end.
Proof.
  destruct (mapM _ _) as [built|e] eqn:E; [|completes E].
  assert (Hin : ("measureId", Column 5) ∈ sourced_fields CONFIG)
    by (do 4 apply list_elem_of_further; apply list_elem_of_here).
  assert (Hnd : NoDup (sourced_fields CONFIG).*1) by compute_done.
  assert (Hconst : "measureId" ∉ (constant_fields CONFIG).*1)
    by compute_done.
  assert (Hkey : "TRUE" <> "") by discriminate.
  assert (Hnot : forall s,
    mapInput Samples.years (Some "TRUE") <> Normal (VStr s))
    by (intros s H; vm_compute in H; discriminate H).
  split.
  - apply (proj1 (proj2 (addStratum_normalized_key Samples.years
                           "quality.csv" "strata.csv" CONFIG 5
                           [Samples.rowOf 61 "x" [(5, "true")]] built
                           ["TRUE"; "Stratum 1"; "x"; "desc"] "TRUE"
                           Hin Hnd Hconst E eq_refl Hkey Hnot)));
      simpl; eauto.
  - apply (proj2 (proj2 (addStratum_normalized_key Samples.years
                           "quality.csv" "strata.csv" CONFIG 5
                           [Samples.rowOf 61 "x" [(5, "true")]] built
                           ["TRUE"] "TRUE"
                           Hin Hnd Hconst E eq_refl Hkey Hnot))).
    left. reflexivity.
Defined.
